(** * google-apps-script-library: date helpers and declaration renderers

    A shallow embedding of
    - [app/code.ts] and [app/type-check.ts]: [toDate], [toDateStrict], [isDate];
    - the build scripts that turn the exported declarations of a source file
      into a declaration block ([buildTypes], [generateTypeDeclarations]) or
      into namespaced documentation comments ([extractExportsFromFile],
      [generateJSDocFromExports], [getParamDescription],
      [getReturnDescription]);
    - the index file of the package ([generateIndexFile]) and the imports
      that a user project makes from it ([findUsedUtilityExports]).

    JavaScript values are an inductive type, object identity is an explicit
    reference, exceptions are a completion record, and the regular
    expressions of the scripts are run by a small backtracking matcher. *)

From Stdlib Require Import Bool Arith ZArith Lia List Ascii String.
From Stdlib Require Import Floats.SpecFloat.
Import ListNotations.

Local Open Scope string_scope.
Local Open Scope bool_scope.

(* ================================================================== *)
(** * Completions, and the monad of code that allocates objects        *)
(* ================================================================== *)

Inductive JsError : Type :=
| TypeError (message : string).

Inductive Completion (A : Type) : Type :=
| Normal (a : A)
| Throw (e : JsError).

Arguments Normal {A} a.
Arguments Throw {A} e.

(** The only part of the heap that the modelled code can observe is which
    object is which: a state is the next unused object reference. *)
Definition Ref := nat.

Definition M (A : Type) : Type := Ref -> Completion A * Ref.

Definition ret {A} (a : A) : M A := fun h => (Normal a, h).

Definition throw {A} (e : JsError) : M A := fun h => (Throw e, h).

Definition bind {A B} (m : M A) (f : A -> M B) : M B :=
  fun h =>
    match m h with
    | (Normal a, h') => f a h'
    | (Throw e, h') => (Throw e, h')
    end.

Definition fresh : M Ref := fun h => (Normal h, S h).

Declare Scope js_scope.
Delimit Scope js_scope with js.
Notation "x <- m ;; k" := (bind m (fun x => k))
  (at level 61, m at next level, right associativity) : js_scope.
Local Open Scope js_scope.

(* ================================================================== *)
(** * Values                                                            *)
(* ================================================================== *)

(** A time value is an integral number of milliseconds or NaN ([None]). *)
Definition TimeValue := option Z.

Record DateObj : Type := mkDate {
  date_ref : Ref;
  date_value : TimeValue
}.

(** Numbers are IEEE 754 values.  [JDate] is a Date object: it has a time
    value of its own, and its [getTime] is the one of [Date.prototype].
    [JObject] stands for an ordinary object that does not inherit from
    [Date.prototype].  [JDateLike] stands for an object that has
    [Date.prototype] on its prototype chain and no time value of its own,
    such as [Object.create(Date.prototype)], or a proxy without traps of a
    Date: it passes [instanceof Date], and the [getTime] that it inherits
    throws on it. *)
Inductive JsValue : Type :=
| JUndefined
| JNull
| JBoolean (b : bool)
| JNumber (x : spec_float)
| JString (s : string)
| JDate (d : DateObj)
| JObject (r : Ref)
| JDateLike (r : Ref).

Inductive JsType : Type :=
| TyUndefined | TyObject | TyBoolean | TyNumber | TyString.

Definition typeof (v : JsValue) : JsType :=
  match v with
  | JUndefined => TyUndefined
  | JNull => TyObject
  | JBoolean _ => TyBoolean
  | JNumber _ => TyNumber
  | JString _ => TyString
  | JDate _ => TyObject
  | JObject _ => TyObject
  | JDateLike _ => TyObject
  end.

Definition JsType_eqb (a b : JsType) : bool :=
  match a, b with
  | TyUndefined, TyUndefined | TyObject, TyObject | TyBoolean, TyBoolean
  | TyNumber, TyNumber | TyString, TyString => true
  | _, _ => false
  end.

(** [v == null] *)
Definition loose_eq_null (v : JsValue) : bool :=
  match v with
  | JUndefined | JNull => true
  | _ => false
  end.

(** [v === undefined] *)
Definition strict_eq_undefined (v : JsValue) : bool :=
  match v with
  | JUndefined => true
  | _ => false
  end.

(** [v instanceof Date]: whether [Date.prototype] is on the prototype
    chain of [v]. *)
Definition instanceof_Date (v : JsValue) : bool :=
  match v with
  | JDate _ | JDateLike _ => true
  | _ => false
  end.

(** The values that pass [instanceof Date] without being a Date. *)
Definition date_like (v : JsValue) : bool :=
  match v with
  | JDateLike _ => true
  | _ => false
  end.

(** [Number.isNaN] on a time value. *)
Definition Number_isNaN (t : TimeValue) : bool :=
  match t with
  | None => true
  | Some _ => false
  end.

(** [TimeClip]: a number that is not finite, or whose magnitude exceeds
    8.64e15, gives NaN; any other number is truncated towards zero. *)
Definition max_time : Z := 8640000000000000.

Definition TimeClip (x : spec_float) : TimeValue :=
  match x with
  | S754_nan => None
  | S754_infinity _ => None
  | S754_zero _ => Some 0%Z
  | S754_finite s m e =>
      let too_big :=
        if (0 <=? e)%Z then (max_time <? Z.pos m * 2 ^ e)%Z
        else (max_time * 2 ^ (- e) <? Z.pos m)%Z in
      if too_big then None
      else
        let mag :=
          if (0 <=? e)%Z then (Z.pos m * 2 ^ e)%Z
          else (Z.pos m / 2 ^ (- e))%Z in
        Some (if s then (- mag)%Z else mag)
  end.

Section Runtime.

(** [Date.parse] belongs to the host; NaN is [None]. *)
Variable Date_parse : string -> TimeValue.

(** [Date.prototype.getTime]: a receiver without a time value of its own
    is a TypeError, whatever its prototype chain. *)
Definition Date_getTime (this : JsValue) : M TimeValue :=
  match this with
  | JDate d => ret (date_value d)
  | _ => throw (TypeError "this is not a Date object.")
  end.

(** The time value that [new Date(value)] stores; an ordinary object
    without conversion methods of its own is parsed as its default
    string.  No Date is made of a [JDateLike] (see [new_Date]). *)
Definition Date_time_of (value : JsValue) : TimeValue :=
  match value with
  | JUndefined => None
  | JNull => Some 0%Z
  | JBoolean b => Some (if b then 1%Z else 0%Z)
  | JNumber x => TimeClip x
  | JString s => Date_parse s
  | JDate d => date_value d
  | JObject _ => Date_parse "[object Object]"
  | JDateLike _ => None
  end.

(** [new Date(value)]: a new object.  A [JDateLike] is converted to a
    primitive by the [toString] it inherits from [Date.prototype], which
    throws as [getTime] does. *)
Definition new_Date (value : JsValue) : M JsValue :=
  match value with
  | JDateLike _ => throw (TypeError "this is not a Date object.")
  | _ =>
      r <- fresh ;;
      ret (JDate (mkDate r (Date_time_of value)))
  end.

(* ------------------------------------------------------------------ *)
(** ** app/code.ts and app/type-check.ts                               *)
(* ------------------------------------------------------------------ *)

Definition toDate (value defaultValue : JsValue) : M JsValue :=
  if loose_eq_null value || strict_eq_undefined value then ret defaultValue
  else if instanceof_Date value then
    t <- Date_getTime value ;;
    ret (if Number_isNaN t then defaultValue else value)
  else if JsType_eqb (typeof value) TyString
          || JsType_eqb (typeof value) TyNumber then
    date <- new_Date value ;;
    t <- Date_getTime date ;;
    ret (if Number_isNaN t then defaultValue else date)
  else ret defaultValue.

Definition toDateStrict (value defaultValue : JsValue) : M JsValue :=
  date <- toDate value defaultValue ;;
  if strict_eq_undefined date
  then throw (TypeError "Value cannot be converted to Date")
  else ret date.

Definition isDate (value : JsValue) : M bool :=
  if instanceof_Date value then
    t <- Date_getTime value ;;
    ret (negb (Number_isNaN t))
  else ret false.

End Runtime.

(* ================================================================== *)
(** * Strings                                                           *)
(* ================================================================== *)

(** Strings are sequences of code units below 256. *)

Definition LF : ascii := "010"%char.
Definition CR : ascii := "013"%char.

(** White space, as [\s] and [trim] understand it. *)
Definition is_space (c : ascii) : bool :=
  match nat_of_ascii c with
  | 9 | 10 | 11 | 12 | 13 | 32 | 160 => true
  | _ => false
  end.

Definition is_line_terminator (c : ascii) : bool :=
  Ascii.eqb c LF || Ascii.eqb c CR.

(** A string is truthy when it is not empty. *)
Definition truthy (s : string) : bool :=
  match s with
  | EmptyString => false
  | String _ _ => true
  end.

(** A value that is a string or [null]. *)
Definition truthy_opt (o : option string) : bool :=
  match o with
  | Some s => truthy s
  | None => false
  end.

(** [node?.getText() || 'any'] *)
Definition text_or_any (o : option string) : string :=
  match o with
  | Some s => if truthy s then s else "any"
  | None => "any"
  end.

(** A string or [undefined] inside a template literal. *)
Definition template_of (o : option string) : string :=
  match o with
  | Some s => s
  | None => "undefined"
  end.

Fixpoint trimStart (s : string) : string :=
  match s with
  | String c s' => if is_space c then trimStart s' else s
  | EmptyString => EmptyString
  end.

Fixpoint trimEnd (s : string) : string :=
  match s with
  | String c s' =>
      match trimEnd s' with
      | EmptyString => if is_space c then EmptyString else String c EmptyString
      | t => String c t
      end
  | EmptyString => EmptyString
  end.

Definition trim (s : string) : string := trimEnd (trimStart s).

(** [s.startsWith(p)] *)
Definition startsWith (s p : string) : bool := String.prefix p s.

(** [s.includes(p)] *)
Fixpoint includes (s p : string) : bool :=
  String.prefix p s ||
  match s with
  | String _ s' => includes s' p
  | EmptyString => false
  end.

(** [s.split(sep)] for a separator of one character. *)
Fixpoint split (sep : ascii) (s : string) : list string :=
  match s with
  | EmptyString => [EmptyString]
  | String c s' =>
      if Ascii.eqb c sep then EmptyString :: split sep s'
      else
        match split sep s' with
        | h :: t => String c h :: t
        | [] => [String c EmptyString]
        end
  end.

(** [lines.join(sep)] *)
Definition join (sep : string) (l : list string) : string :=
  String.concat sep l.

(** [s.replace(pat, rep)] for a string pattern: the first occurrence. *)
Fixpoint replace_first (pat rep s : string) : string :=
  if String.prefix pat s
  then rep ++ substring (String.length pat) (String.length s - String.length pat) s
  else
    match s with
    | String c s' => String c (replace_first pat rep s')
    | EmptyString => EmptyString
    end.

(* ================================================================== *)
(** * Regular expressions                                               *)
(* ================================================================== *)

(** The patterns of the scripts quantify single characters and classes
    only, and have at most one capture group. *)

Inductive CharSet : Type :=
| Lit (c : ascii)              (* a pattern character *)
| NoneOf (cs : list ascii)     (* [^...] *)
| Space.                       (* \s *)

Inductive Regex : Type :=
| REmpty
| RSet (cs : CharSet)
| RStar (cs : CharSet)         (* greedy * *)
| RPlus (cs : CharSet)         (* greedy + *)
| ROpt (cs : CharSet)          (* greedy ? *)
| RBol                         (* ^ under the m flag *)
| REnd                         (* $ without the m flag *)
| RSeq (r1 r2 : Regex)
| RAlt (r1 r2 : Regex)
| RGroup (r : Regex).          (* ( ... ) *)

(** Canonicalisation under the i flag: the upper-case form, when it is a
    code unit below 256. *)
Definition canonicalize (ignoreCase : bool) (c : ascii) : ascii :=
  if ignoreCase then
    let n := nat_of_ascii c in
    if ((97 <=? n) && (n <=? 122)
        || (224 <=? n) && (n <=? 254) && negb (n =? 247))%nat
    then ascii_of_nat (n - 32) else c
  else c.

Definition cs_match (ignoreCase : bool) (cs : CharSet) (c : ascii) : bool :=
  match cs with
  | Lit x => Ascii.eqb (canonicalize ignoreCase x) (canonicalize ignoreCase c)
  | NoneOf l =>
      negb (existsb (fun x => Ascii.eqb (canonicalize ignoreCase x)
                                        (canonicalize ignoreCase c)) l)
  | Space => is_space c
  end.

Section Matcher.

Variable R : Type.
Variable ignoreCase : bool.

(** A continuation receives the character before the current position,
    the rest of the input and the capture. *)
Definition Cont : Type := option ascii -> string -> option string -> option R.

(** Greedy repetition of a class: the longest run first, then shorter
    ones. *)
Fixpoint star_m (cs : CharSet) (prev : option ascii) (s : string)
    (k : option ascii -> string -> option R) : option R :=
  match s with
  | String c s' =>
      if cs_match ignoreCase cs c then
        match star_m cs (Some c) s' k with
        | Some r => Some r
        | None => k prev s
        end
      else k prev s
  | EmptyString => k prev s
  end.

Fixpoint rmatch (r : Regex) (prev : option ascii) (s : string)
    (cap : option string) (k : Cont) : option R :=
  match r with
  | REmpty => k prev s cap
  | RSet cs =>
      match s with
      | String c s' => if cs_match ignoreCase cs c then k (Some c) s' cap else None
      | EmptyString => None
      end
  | RStar cs => star_m cs prev s (fun p s' => k p s' cap)
  | RPlus cs =>
      match s with
      | String c s' =>
          if cs_match ignoreCase cs c
          then star_m cs (Some c) s' (fun p s'' => k p s'' cap)
          else None
      | EmptyString => None
      end
  | ROpt cs =>
      match s with
      | String c s' =>
          if cs_match ignoreCase cs c then
            match k (Some c) s' cap with
            | Some res => Some res
            | None => k prev s cap
            end
          else k prev s cap
      | EmptyString => k prev s cap
      end
  | RBol =>
      match prev with
      | None => k prev s cap
      | Some c => if is_line_terminator c then k prev s cap else None
      end
  | REnd =>
      match s with
      | EmptyString => k prev s cap
      | String _ _ => None
      end
  | RSeq r1 r2 =>
      rmatch r1 prev s cap (fun p s' cap' => rmatch r2 p s' cap' k)
  | RAlt r1 r2 =>
      match rmatch r1 prev s cap k with
      | Some res => Some res
      | None => rmatch r2 prev s cap k
      end
  | RGroup r1 =>
      rmatch r1 prev s cap
        (fun p s' _ =>
           k p s' (Some (substring 0 (String.length s - String.length s') s)))
  end.

End Matcher.

Arguments star_m {R} ignoreCase cs prev s k.
Arguments rmatch {R} ignoreCase r prev s cap k.

(** The outcome of a match: how many characters it spans, and the
    capture. *)
Record MatchResult : Type := mkMatch {
  match_length : nat;
  group1 : option string
}.

(** A match that starts at the current position. *)
Definition exec_at (ignoreCase : bool) (r : Regex) (prev : option ascii)
    (s : string) : option MatchResult :=
  rmatch ignoreCase r prev s None
    (fun _ s' cap => Some (mkMatch (String.length s - String.length s') cap)).

(** [s.match(r)] without the g flag: the leftmost match. *)
Fixpoint search (ignoreCase : bool) (r : Regex) (prev : option ascii)
    (s : string) : option MatchResult :=
  match exec_at ignoreCase r prev s with
  | Some m => Some m
  | None =>
      match s with
      | String c s' => search ignoreCase r (Some c) s'
      | EmptyString => None
      end
  end.

Definition str_match (s : string) (ignoreCase : bool) (r : Regex)
  : option MatchResult :=
  search ignoreCase r None s.

(** [m[1].trim()] *)
Definition group1_trim (m : MatchResult) : string :=
  match group1 m with
  | Some g => trim g
  | None => EmptyString
  end.

(** [s.replace(r, '')] with the g flag.  [skip] counts the characters of
    the current match still to be dropped; an empty match removes nothing
    and the scan moves one character on. *)
Fixpoint replace_all_go (ignoreCase : bool) (r : Regex) (skip : nat)
    (prev : option ascii) (s : string) : string :=
  match s with
  | EmptyString => EmptyString
  | String c s' =>
      match skip with
      | S n => replace_all_go ignoreCase r n (Some c) s'
      | O =>
          match exec_at ignoreCase r prev s with
          | Some (mkMatch (S n) _) => replace_all_go ignoreCase r n (Some c) s'
          | _ => String c (replace_all_go ignoreCase r 0 (Some c) s')
          end
      end
  end.

Definition replace_all (s : string) (ignoreCase : bool) (r : Regex) : string :=
  replace_all_go ignoreCase r 0 None s.

(** A literal run of pattern characters. *)
Fixpoint lits (s : string) : Regex :=
  match s with
  | EmptyString => REmpty
  | String c EmptyString => RSet (Lit c)
  | String c s' => RSeq (RSet (Lit c)) (lits s')
  end.

(** A parameter name spliced into a pattern source, for a name that is an
    identifier: of the characters of an identifier (letters, digits, [_]
    and [$]), [$] is the end assertion and the others stand for themselves.
    In any other text that the parser library can return as the name of a
    parameter (a binding pattern such as [{ a, b }]), characters would be
    read as pattern syntax; such names are outside this model, and what is
    stated below about a pattern with a spliced name is stated for
    identifiers ([is_identifier]). *)
Fixpoint splice (name : string) : Regex :=
  match name with
  | EmptyString => REmpty
  | String c s' =>
      RSeq (if Ascii.eqb c "$"%char then REnd else RSet (Lit c)) (splice s')
  end.

Fixpoint seqs (l : list Regex) : Regex :=
  match l with
  | [] => REmpty
  | [r] => r
  | r :: l' => RSeq r (seqs l')
  end.

(* ================================================================== *)
(** * Source files as the build scripts see them                        *)
(* ================================================================== *)

(** The scripts read a source file through the node accessors of the
    parser library: [getTypeAliases], [getFunctions], [isExported],
    [getName], [getTypeNode], [getReturnTypeNode], [getParameters],
    [hasQuestionToken], [getJsDocs] and [getText]. *)

Record ParameterNode : Type := mkParam {
  param_name : string;
  param_typeNode : option string;
  param_questionToken : bool
}.

Record TypeAliasNode : Type := mkAlias {
  alias_exported : bool;
  alias_name : string;
  alias_typeNode : option string;
  alias_jsDocs : list string
}.

Record FunctionNode : Type := mkFunction {
  fn_exported : bool;
  fn_name : option string;
  fn_parameters : list ParameterNode;
  fn_returnTypeNode : option string;
  fn_jsDocs : list string
}.

Inductive Statement : Type :=
| StTypeAlias (a : TypeAliasNode)
| StFunction (f : FunctionNode)
| StOther (text : string).

(** The top-level statements, from the top of the file to the bottom. *)
Definition SourceFile := list Statement.

Fixpoint getTypeAliases (sourceFile : SourceFile) : list TypeAliasNode :=
  match sourceFile with
  | [] => []
  | StTypeAlias a :: rest => a :: getTypeAliases rest
  | _ :: rest => getTypeAliases rest
  end.

Fixpoint getFunctions (sourceFile : SourceFile) : list FunctionNode :=
  match sourceFile with
  | [] => []
  | StFunction f :: rest => f :: getFunctions rest
  | _ :: rest => getFunctions rest
  end.

(** [extractJSDocComment], the same in both scripts; [null] is [None]. *)
Definition extractJSDocComment (jsDocs : list string) : option string :=
  match jsDocs with
  | d :: _ => Some d
  | [] => None
  end.

(* ------------------------------------------------------------------ *)
(** ** Documentation comments                                           *)
(* ------------------------------------------------------------------ *)

(** [/\/\*\*|\*\//g] *)
Definition re_delimiters : Regex := RAlt (lits "/**") (lits "*/").

(** [/^\s*\*\s?/gm] *)
Definition re_leading_star : Regex :=
  seqs [RBol; RStar Space; RSet (Lit "*"%char); ROpt Space].

(** The chain [replace], [replace], [split], [map] shared by
    [extractCleanComment] and the declaration-block renderer. *)
Definition trimmedLines (comment : string) : list string :=
  map trim
    (split LF
       (replace_all (replace_all comment false re_delimiters)
          false re_leading_star)).

Definition extractCleanComment (jsdocComment : option string) : string :=
  match jsdocComment with
  | None => EmptyString
  | Some c =>
      if negb (truthy c) then EmptyString
      else
        trim (join " "
                (filter (fun line => truthy line && negb (startsWith line "@"))
                   (trimmedLines c)))
  end.

(* ================================================================== *)
(** * The declaration-block renderer (part_001)                         *)
(* ================================================================== *)

Record TypeRec : Type := mkTypeRec {
  type_name : string;
  type_definition : string;
  type_comment : option string
}.

(** An element of [allInterfaces].  The renderer looks these objects up
    with [indexOf], which compares identities: [iface_ref] is the identity
    of the object. *)
Record IfaceRec : Type := mkIfaceRec {
  iface_ref : Ref;
  iface_name : option string;
  iface_signature : string;
  iface_comment : option string
}.

Definition typeRecord (typeAlias : TypeAliasNode) : TypeRec :=
  {| type_name := alias_name typeAlias;
     type_definition := text_or_any (alias_typeNode typeAlias);
     type_comment := extractJSDocComment (alias_jsDocs typeAlias) |}.

Definition paramSignature (param : ParameterNode) : string :=
  let paramName := param_name param in
  let paramType := text_or_any (param_typeNode param) in
  let isOptional := param_questionToken param in
  paramName ++ (if isOptional then "?" else "") ++ ": " ++ paramType.

Definition functionSignature (func : FunctionNode) : string :=
  let name := fn_name func in
  let returnType := text_or_any (fn_returnTypeNode func) in
  let paramSignatures := join ", " (map paramSignature (fn_parameters func)) in
  template_of name ++ "(" ++ paramSignatures ++ "): " ++ returnType.

Definition interfaceRecord (func : FunctionNode) : M IfaceRec :=
  r <- fresh ;;
  ret {| iface_ref := r;
         iface_name := fn_name func;
         iface_signature := functionSignature func;
         iface_comment := extractJSDocComment (fn_jsDocs func) |}.

Fixpoint mapM {A B} (f : A -> M B) (l : list A) : M (list B) :=
  match l with
  | [] => ret []
  | a :: l' =>
      b <- f a ;;
      bs <- mapM f l' ;;
      ret (b :: bs)
  end.

(** The collecting loop of [buildTypes]: [allTypes] and [allInterfaces]
    after the source files have been visited. *)
Fixpoint collectExports (sourceFiles : list SourceFile)
    (allTypes : list TypeRec) (allInterfaces : list IfaceRec)
  : M (list TypeRec * list IfaceRec) :=
  match sourceFiles with
  | [] => ret (allTypes, allInterfaces)
  | sourceFile :: rest =>
      let typeAliases := filter alias_exported (getTypeAliases sourceFile) in
      let functions := filter fn_exported (getFunctions sourceFile) in
      pushed <- mapM interfaceRecord functions ;;
      collectExports rest (allTypes ++ map typeRecord typeAliases)
        (allInterfaces ++ pushed)
  end.

(** [interfaces.indexOf(func)]: the first position that holds the object
    itself, or -1. *)
Fixpoint indexOf_from (interfaces : list IfaceRec) (func : IfaceRec) (i : Z) : Z :=
  match interfaces with
  | [] => (-1)%Z
  | x :: rest =>
      if Nat.eqb (iface_ref x) (iface_ref func) then i
      else indexOf_from rest func (i + 1)%Z
  end.

Definition indexOf (interfaces : list IfaceRec) (func : IfaceRec) : Z :=
  indexOf_from interfaces func 0%Z.

Definition isTagLine (line : string) : bool :=
  startsWith line "@param" || startsWith line "@returns"
  || startsWith line "@throws".

Definition typeMember (type : TypeRec) : list string :=
  (if truthy_opt (type_comment type) then
     let cleanComment := extractCleanComment (type_comment type) in
     if truthy (trim cleanComment)
     then ["    /**"; "     * " ++ cleanComment; "     */"]
     else []
   else [])
  ++ ["    type " ++ type_name type ++ " = " ++ type_definition type; ""].

Definition interfaceMember (interfaces : list IfaceRec) (func : IfaceRec)
  : list string :=
  (match iface_comment func with
   | Some comment =>
       if truthy comment then
         let cleanComment := extractCleanComment (Some comment) in
         let originalLines := filter truthy (trimmedLines comment) in
         ["      /**"]
         ++ (if truthy (trim cleanComment)
             then ["       * " ++ cleanComment] else [])
         ++ map (fun line => "       * " ++ line) (filter isTagLine originalLines)
         ++ ["       */"]
       else []
   | None => []
   end)
  ++ ["      " ++ iface_signature func]
  ++ (if (indexOf interfaces func <? Z.of_nat (List.length interfaces) - 1)%Z
      then [""] else []).

Definition declarationLines (types : list TypeRec) (interfaces : list IfaceRec)
  : list string :=
  ["declare namespace Lib {"; "  namespace Utils {"]
  ++ flat_map typeMember types
  ++ ["    interface Utils {"]
  ++ flat_map (interfaceMember interfaces) interfaces
  ++ ["    }"; "  }"; "}"; ""; "declare var Utils: Lib.Utils.Utils"; ""].

Definition generateTypeDeclarations (types : list TypeRec)
    (interfaces : list IfaceRec) : string :=
  join (String LF EmptyString) (declarationLines types interfaces).

(** [outputContent] of [buildTypes]. *)
Definition buildTypes_outputContent (sourceFiles : list SourceFile) : M string :=
  collected <- collectExports sourceFiles [] [] ;;
  ret (generateTypeDeclarations (fst collected) (snd collected)).

(* ================================================================== *)
(** * The namespaced-documentation renderer (part_002)                  *)
(* ================================================================== *)

Record FuncRec : Type := mkFuncRec {
  func_name : option string;
  func_parameters : list ParameterNode;
  func_returnType : string;
  func_comment : option string;
  func_funcNode : FunctionNode
}.

Record Exports : Type := mkExports {
  types : list TypeRec;
  functions : list FuncRec
}.

Definition functionRecord (func : FunctionNode) : FuncRec :=
  {| func_name := fn_name func;
     func_parameters := fn_parameters func;
     func_returnType := text_or_any (fn_returnTypeNode func);
     func_comment := extractJSDocComment (fn_jsDocs func);
     func_funcNode := func |}.

Definition extractExportsFromFile (sourceFile : SourceFile) : Exports :=
  let typeAliases := filter alias_exported (getTypeAliases sourceFile) in
  let exportedFunctions := filter fn_exported (getFunctions sourceFile) in
  {| types := map typeRecord typeAliases;
     functions := map functionRecord exportedFunctions |}.

(** The collecting loop of [buildJSDoc]. *)
Fixpoint collectJSDocExports (sourceFiles : list SourceFile)
    (allTypes : list TypeRec) (allFunctions : list FuncRec) : Exports :=
  match sourceFiles with
  | [] => {| types := allTypes; functions := allFunctions |}
  | sourceFile :: rest =>
      let e := extractExportsFromFile sourceFile in
      collectJSDocExports rest (allTypes ++ types e) (allFunctions ++ functions e)
  end.

Definition backslash : ascii := "092"%char.

(** [new RegExp(`@param[^\\n]*${paramName}[^\\n]*-\\s*([^\\n]+)`, 'i')]:
    the template literal halves each pair of backslashes, so the pattern is
    [@param[^\n]*NAME[^\n]*-\s*([^\n]+)]. *)
Definition re_param (paramName : string) : Regex :=
  seqs [lits "@param"; RStar (NoneOf [LF]); splice paramName;
        RStar (NoneOf [LF]); RSet (Lit "-"%char); RStar Space;
        RGroup (RPlus (NoneOf [LF]))].

(** [/@returns?[^\\n]*-\\s*([^\\n]+)/i]: in a regular expression literal a
    pair of backslashes is one literal backslash, so the classes exclude
    the backslash and the letter n, and a backslash followed by any number
    of letters s has to come after the hyphen. *)
Definition re_returns : Regex :=
  seqs [lits "@return"; ROpt (Lit "s"%char);
        RStar (NoneOf [backslash; "n"%char]); RSet (Lit "-"%char);
        RSet (Lit backslash); RStar (Lit "s"%char);
        RGroup (RPlus (NoneOf [backslash; "n"%char]))].

(** A documentation comment that is neither [null] nor empty. *)
Definition present (jsdocComment : option string) : option string :=
  match jsdocComment with
  | Some comment => if truthy comment then Some comment else None
  | None => None
  end.

Definition getParamDescription (jsdocComment : option string)
    (paramName : string) : string :=
  match present jsdocComment with
  | None =>
      if String.eqb paramName "value" then "The value to convert to a Date"
      else if String.eqb paramName "defaultValue"
      then "The default value to return if the value is invalid"
      else "The " ++ paramName ++ " parameter"
  | Some comment =>
      match str_match comment true (re_param paramName) with
      | Some paramMatch => group1_trim paramMatch
      | None =>
          if String.eqb paramName "defaultValue"
          then "The default value to return if the value is invalid"
          else "The value to convert to a Date"
      end
  end.

Definition name_is (functionName : option string) (s : string) : bool :=
  match functionName with
  | Some n => String.eqb n s
  | None => false
  end.

Definition getReturnDescription (jsdocComment : option string)
    (functionName : option string) : string :=
  match present jsdocComment with
  | None =>
      if name_is functionName "toDate"
      then "The converted Date or null if the value is invalid"
      else if name_is functionName "toDateStrict" then "The converted Date"
      else if name_is functionName "isDate"
      then "True if the value is a valid Date object"
      else "The return value"
  | Some comment =>
      match str_match comment true re_returns with
      | Some returnMatch => group1_trim returnMatch
      | None =>
          if name_is functionName "toDate"
          then "The converted Date or null if the value is invalid"
          else if name_is functionName "isDate"
          then "True if the value is a valid Date object"
          else "The converted Date"
      end
  end.

Definition typedefBlock (type : TypeRec) : list string :=
  ["/**"]
  ++ (if truthy_opt (type_comment type)
      then [" * " ++ extractCleanComment (type_comment type)] else [])
  ++ [" * @typedef {" ++ type_definition type ++ "} Utils." ++ type_name type;
      " */"; ""].

Definition paramLine (comment : option string) (param : ParameterNode) : string :=
  let paramName := param_name param in
  let paramType := text_or_any (param_typeNode param) in
  let isOptional := param_questionToken param in
  let formattedParamType :=
    if includes paramType "DateValue" then "Utils." ++ paramType else paramType in
  let paramStr :=
    if isOptional then
      if String.eqb paramName "defaultValue"
      then "[" ++ paramName ++ "=null]"
      else "[" ++ paramName ++ "]"
    else paramName in
  " * @param {" ++ formattedParamType ++ "} " ++ paramStr ++ " - "
  ++ getParamDescription comment paramName.

Definition functionBlock (func : FuncRec) : list string :=
  ["/**"]
  ++ (if truthy_opt (func_comment func) then
        let cleanComment := extractCleanComment (func_comment func) in
        if truthy (trim cleanComment) then [" * " ++ cleanComment] else []
      else [])
  ++ [" * @function Utils." ++ template_of (func_name func)]
  ++ map (paramLine (func_comment func)) (func_parameters func)
  ++ (let formattedReturnType :=
        if includes (func_returnType func) "Date"
        then replace_first "undefined" "null" (func_returnType func)
        else func_returnType func in
      [" * @returns {" ++ formattedReturnType ++ "} "
       ++ getReturnDescription (func_comment func) (func_name func)])
  ++ (if name_is (func_name func) "toDateStrict"
         && match func_comment func with
            | Some c => includes c "@throws"
            | None => false
            end
      then [" * @throws {Error} If the value cannot be converted to a valid Date"]
      else [])
  ++ [" */"; ""].

Definition jsdocLines (allTypes : list TypeRec) (allFunctions : list FuncRec)
  : list string :=
  let functionDeclarations := map func_name allFunctions in
  ["/**"; " * @namespace Utils"; " */"; ""]
  ++ flat_map typedefBlock allTypes
  ++ flat_map functionBlock allFunctions
  ++ (if (0 <? List.length functionDeclarations)%nat then
        ["/**"; " * @typedef {Object} Utils"]
        ++ map (fun funcName => " * @property {function} " ++ template_of funcName)
             functionDeclarations
        ++ [" */"; ""]
      else [])
  ++ ["/**"; " * @type {Utils}"; " */"; "var Utils = Utils || {}"; ""].

Definition generateJSDocFromExports (allTypes : list TypeRec)
    (allFunctions : list FuncRec) : string :=
  join (String LF EmptyString) (jsdocLines allTypes allFunctions).

(** [outputContent] of [buildJSDoc]. *)
Definition buildJSDoc_outputContent (sourceFiles : list SourceFile) : string :=
  let e := collectJSDocExports sourceFiles [] [] in
  generateJSDocFromExports (types e) (functions e).

(* ================================================================== *)
(** * The sources of the library, as parsed                             *)
(* ================================================================== *)

Definition doc_DateValue : string :=
"/**
 * Valid date value types that can be converted to Date
 */".

Definition doc_toDate : string :=
"/**
 * Returns a Date from the specified argument.
 * @param value - The value to convert to Date
 * @param defaultValue - Default Date to return if conversion fails
 * @returns Date object or defaultValue if conversion fails
 */".

Definition doc_toDateStrict : string :=
"/**
 * Returns a Date from the specified argument, throwing if conversion fails.
 * @param value - The value to convert to Date
 * @param defaultValue - Default Date to return if conversion fails
 * @returns Date object
 * @throws TypeError if value cannot be converted to Date and no default provided
 */".

Definition doc_isDate : string :=
"/**
 * Returns true if the value is a valid Date object
 * @param value - The value to convert to Date
 */".

Definition node_DateValue : TypeAliasNode :=
  {| alias_exported := true;
     alias_name := "DateValue";
     alias_typeNode := Some "Date | number | string | null | undefined";
     alias_jsDocs := [doc_DateValue] |}.

Definition node_toDate : FunctionNode :=
  {| fn_exported := true;
     fn_name := Some "toDate";
     fn_parameters := [mkParam "value" (Some "DateValue") false;
                       mkParam "defaultValue" (Some "Date") true];
     fn_returnTypeNode := Some "Date | undefined";
     fn_jsDocs := [doc_toDate] |}.

Definition node_toDateStrict : FunctionNode :=
  {| fn_exported := true;
     fn_name := Some "toDateStrict";
     fn_parameters := [mkParam "value" (Some "DateValue") false;
                       mkParam "defaultValue" (Some "Date") true];
     fn_returnTypeNode := Some "Date";
     fn_jsDocs := [doc_toDateStrict] |}.

Definition node_isDate : FunctionNode :=
  {| fn_exported := true;
     fn_name := Some "isDate";
     fn_parameters := [mkParam "value" (Some "unknown") false];
     fn_returnTypeNode := Some "boolean";
     fn_jsDocs := [doc_isDate] |}.

(** [app/code.ts] *)
Definition code_ts : SourceFile :=
  [StTypeAlias node_DateValue; StFunction node_toDate;
   StFunction node_toDateStrict].

(** [app/type-check.ts] *)
Definition type_check_ts : SourceFile := [StFunction node_isDate].

(** The sources from which [docs/gas-types.js] was generated: the
    comments of [toDate] and [toDateStrict] had no return tag yet. *)
Definition doc_toDate_0 : string :=
"/**
 * Returns a Date from the specified argument.
 * @param value - The value to convert to Date
 * @param defaultValue - Default Date to return if conversion fails
 */".

Definition doc_toDateStrict_0 : string :=
"/**
 * Returns a Date from the specified argument, throwing if conversion fails.
 * @param value - The value to convert to Date
 * @param defaultValue - Default Date to return if conversion fails
 */".

Definition code_ts_0 : SourceFile :=
  [StTypeAlias node_DateValue;
   StFunction (mkFunction true (Some "toDate") (fn_parameters node_toDate)
                 (Some "Date | undefined") [doc_toDate_0]);
   StFunction (mkFunction true (Some "toDateStrict")
                 (fn_parameters node_toDateStrict) (Some "Date")
                 [doc_toDateStrict_0])].




Definition doc_returns_hyphen : string :=
"/**
 * Returns the day after a date.
 * @param value - The date to start from
 * @returns - The next day
 */".

(* ================================================================== *)
(** * A host for the examples                                           *)
(* ================================================================== *)

(** A [Date.parse] that accepts the date-only form [YYYY-MM-DD] of the
    Date Time String Format, read as UTC, and nothing else. *)

Definition digit (c : ascii) : option Z :=
  let n := nat_of_ascii c in
  if ((48 <=? n) && (n <=? 57))%nat then Some (Z.of_nat (n - 48)) else None.

Definition days_in_month (y m : Z) : Z :=
  if (m =? 2)%Z then
    if ((y mod 4 =? 0) && (negb (y mod 100 =? 0) || (y mod 400 =? 0)))%Z
    then 29%Z else 28%Z
  else if ((m =? 4) || (m =? 6) || (m =? 9) || (m =? 11))%Z then 30%Z
  else 31%Z.

(** Days from 1970-01-01 to the given day of the proleptic Gregorian
    calendar. *)
Definition days_from_civil (y m d : Z) : Z :=
  let y' := (if m <=? 2 then y - 1 else y)%Z in
  let era := (y' / 400)%Z in
  let yoe := (y' - era * 400)%Z in
  let mp := (if 2 <? m then m - 3 else m + 9)%Z in
  let doy := ((153 * mp + 2) / 5 + d - 1)%Z in
  let doe := (yoe * 365 + yoe / 4 - yoe / 100 + doy)%Z in
  (era * 146097 + doe - 719468)%Z.

Definition ms_per_day : Z := 86400000.

Definition Date_parse_iso (s : string) : TimeValue :=
  match list_ascii_of_string s with
  | [y1; y2; y3; y4; dash1; m1; m2; dash2; d1; d2] =>
      match digit y1, digit y2, digit y3, digit y4,
            digit m1, digit m2, digit d1, digit d2 with
      | Some a, Some b, Some c, Some d, Some e, Some f, Some g, Some i =>
          let y := (1000 * a + 100 * b + 10 * c + d)%Z in
          let m := (10 * e + f)%Z in
          let day := (10 * g + i)%Z in
          if Ascii.eqb dash1 "-"%char && Ascii.eqb dash2 "-"%char
             && (1 <=? m)%Z && (m <=? 12)%Z
             && (1 <=? day)%Z && (day <=? days_in_month y m)%Z
          then Some (days_from_civil y m day * ms_per_day)%Z
          else None
      | _, _, _, _, _, _, _, _ => None
      end
  | _ => None
  end.

(* ================================================================== *)
(** * Statements about extraction and rendering                         *)
(* ================================================================== *)

(** What one pass over the statements of a file keeps: the exported type
    aliases and the exported functions, each kind in the order of the
    file. *)
Inductive Extracted : SourceFile -> list TypeAliasNode -> list FunctionNode -> Prop :=
| Extracted_nil : Extracted [] [] []
| Extracted_alias a sf ts fs :
    alias_exported a = true -> Extracted sf ts fs ->
    Extracted (StTypeAlias a :: sf) (a :: ts) fs
| Extracted_alias_skip a sf ts fs :
    alias_exported a = false -> Extracted sf ts fs ->
    Extracted (StTypeAlias a :: sf) ts fs
| Extracted_function f sf ts fs :
    fn_exported f = true -> Extracted sf ts fs ->
    Extracted (StFunction f :: sf) ts (f :: fs)
| Extracted_function_skip f sf ts fs :
    fn_exported f = false -> Extracted sf ts fs ->
    Extracted (StFunction f :: sf) ts fs
| Extracted_other text sf ts fs :
    Extracted sf ts fs -> Extracted (StOther text :: sf) ts fs.

(** The names of the exported declarations of a file from top to bottom,
    whatever their kind. *)
Fixpoint exportedNamesInSourceOrder (sf : SourceFile) : list (option string) :=
  match sf with
  | [] => []
  | StTypeAlias a :: rest =>
      if alias_exported a
      then Some (alias_name a) :: exportedNamesInSourceOrder rest
      else exportedNamesInSourceOrder rest
  | StFunction f :: rest =>
      if fn_exported f
      then fn_name f :: exportedNamesInSourceOrder rest
      else exportedNamesInSourceOrder rest
  | StOther _ :: rest => exportedNamesInSourceOrder rest
  end.

(** The names of the extracted records in the order in which both
    renderers go through them: the types, then the functions. *)
Definition recordNames (e : Exports) : list (option string) :=
  map (fun t => Some (type_name t)) (types e) ++ map func_name (functions e).

(** Two interface records that differ at most in their identity. *)
Definition same_iface_content (a b : IfaceRec) : Prop :=
  iface_name a = iface_name b
  /\ iface_signature a = iface_signature b
  /\ iface_comment a = iface_comment b.

(** Two lists of objects in which the same positions hold the same
    object. *)
Definition same_aliasing (l1 l2 : list IfaceRec) : Prop :=
  forall i j a b a' b',
    nth_error l1 i = Some a -> nth_error l1 j = Some b ->
    nth_error l2 i = Some a' -> nth_error l2 j = Some b' ->
    (iface_ref a = iface_ref b <-> iface_ref a' = iface_ref b').

(** Two function records that differ at most in the node they keep. *)
Definition same_func_content (f g : FuncRec) : Prop :=
  func_name f = func_name g
  /\ func_parameters f = func_parameters g
  /\ func_returnType f = func_returnType g
  /\ func_comment f = func_comment g.

(** Two runs of the collecting loop that start from different allocation
    states build records that differ by a shift of their references. *)
Definition shifted (h1 h2 : Ref) (a b : IfaceRec) : Prop :=
  same_iface_content a b /\ iface_ref a + h2 = iface_ref b + h1.

(** The source of scenario A, with any documentation comments. *)
Definition scenarioA_ts (aliasDocs funcDocs : list string) : SourceFile :=
  [StTypeAlias (mkAlias true "DateValue"
                  (Some "Date | number | string | null | undefined") aliasDocs);
   StFunction (mkFunction true (Some "isDate")
                 [mkParam "value" (Some "unknown") false] (Some "boolean")
                 funcDocs)].

(** A file that declares a function before a type alias. *)
Definition function_first_ts : SourceFile :=
  [StFunction node_isDate; StTypeAlias node_DateValue].

(* ------------------------------------------------------------------ *)
(** ** What a pattern can reach                                         *)
(* ------------------------------------------------------------------ *)

(** Whether a character occurs in a string. *)
Fixpoint occurs (c : ascii) (s : string) : bool :=
  match s with
  | EmptyString => false
  | String x s' => Ascii.eqb x c || occurs c s'
  end.

(** Names made of letters, digits and underscores. *)
Definition is_word_char (c : ascii) : bool :=
  let n := nat_of_ascii c in
  ((48 <=? n) && (n <=? 57) || (65 <=? n) && (n <=? 90)
   || (97 <=? n) && (n <=? 122) || (n =? 95))%nat.


(** Identifiers: letters, digits, underscores and dollar signs. *)
Definition is_identifier_char (c : ascii) : bool :=
  is_word_char c || Ascii.eqb c "$"%char.

Fixpoint is_identifier (s : string) : bool :=
  match s with
  | EmptyString => true
  | String c s' => is_identifier_char c && is_identifier s'
  end.

(** A text that is a run of pattern characters up to the case of its
    letters: character by character, the pattern character matches under
    the i flag. *)
Fixpoint same_ignoring_case (pattern text : string) : bool :=
  match pattern, text with
  | EmptyString, EmptyString => true
  | String x pattern', String y text' =>
      cs_match true (Lit x) y && same_ignoring_case pattern' text'
  | _, _ => false
  end.

(** The leftmost match of a pattern in [pre ++ rest] among those that
    start inside [pre]. *)
Fixpoint search_within (ignoreCase : bool) (r : Regex) (prev : option ascii)
    (pre rest : string) : option MatchResult :=
  match pre with
  | EmptyString => None
  | String c pre' =>
      match exec_at ignoreCase r prev (pre ++ rest) with
      | Some m => Some m
      | None => search_within ignoreCase r (Some c) pre' rest
      end
  end.


(** The positions that a repetition of a class can stop at. *)
Inductive ReachStar (ignoreCase : bool) (cs : CharSet)
  : option ascii -> string -> option ascii -> string -> Prop :=
| ReachStar_stop prev s : ReachStar ignoreCase cs prev s prev s
| ReachStar_step prev c s prev' s' :
    cs_match ignoreCase cs c = true ->
    ReachStar ignoreCase cs (Some c) s prev' s' ->
    ReachStar ignoreCase cs prev (String c s) prev' s'.

(** [Reach r prev s cap prev' s' cap']: from the position with [prev]
    before it and [s] after it, and with capture [cap], the pattern [r]
    can be matched so as to end with [prev'], [s'] and [cap']. *)
Inductive Reach (ignoreCase : bool)
  : Regex -> option ascii -> string -> option string ->
    option ascii -> string -> option string -> Prop :=
| Reach_empty prev s cap : Reach ignoreCase REmpty prev s cap prev s cap
| Reach_set cs prev c s cap :
    cs_match ignoreCase cs c = true ->
    Reach ignoreCase (RSet cs) prev (String c s) cap (Some c) s cap
| Reach_star cs prev s cap prev' s' :
    ReachStar ignoreCase cs prev s prev' s' ->
    Reach ignoreCase (RStar cs) prev s cap prev' s' cap
| Reach_plus cs prev c s cap prev' s' :
    cs_match ignoreCase cs c = true ->
    ReachStar ignoreCase cs (Some c) s prev' s' ->
    Reach ignoreCase (RPlus cs) prev (String c s) cap prev' s' cap
| Reach_opt_skip cs prev s cap : Reach ignoreCase (ROpt cs) prev s cap prev s cap
| Reach_opt_take cs prev c s cap :
    cs_match ignoreCase cs c = true ->
    Reach ignoreCase (ROpt cs) prev (String c s) cap (Some c) s cap
| Reach_bol_start s cap : Reach ignoreCase RBol None s cap None s cap
| Reach_bol_line c s cap :
    is_line_terminator c = true ->
    Reach ignoreCase RBol (Some c) s cap (Some c) s cap
| Reach_end prev cap :
    Reach ignoreCase REnd prev EmptyString cap prev EmptyString cap
| Reach_seq r1 r2 prev s cap prev1 s1 cap1 prev2 s2 cap2 :
    Reach ignoreCase r1 prev s cap prev1 s1 cap1 ->
    Reach ignoreCase r2 prev1 s1 cap1 prev2 s2 cap2 ->
    Reach ignoreCase (RSeq r1 r2) prev s cap prev2 s2 cap2
| Reach_alt_left r1 r2 prev s cap prev' s' cap' :
    Reach ignoreCase r1 prev s cap prev' s' cap' ->
    Reach ignoreCase (RAlt r1 r2) prev s cap prev' s' cap'
| Reach_alt_right r1 r2 prev s cap prev' s' cap' :
    Reach ignoreCase r2 prev s cap prev' s' cap' ->
    Reach ignoreCase (RAlt r1 r2) prev s cap prev' s' cap'
| Reach_group r prev s cap prev' s' cap' :
    Reach ignoreCase r prev s cap prev' s' cap' ->
    Reach ignoreCase (RGroup r) prev s cap prev' s'
      (Some (substring 0 (String.length s - String.length s') s)).

(** A class that rejects the line feed, and a pattern that cannot consume
    one. *)
Definition cs_rejects_LF (ignoreCase : bool) (cs : CharSet) : bool :=
  negb (cs_match ignoreCase cs LF).

Fixpoint consumes_no_LF (ignoreCase : bool) (r : Regex) : bool :=
  match r with
  | REmpty | RBol | REnd => true
  | RSet cs | RStar cs | RPlus cs | ROpt cs => cs_rejects_LF ignoreCase cs
  | RSeq r1 r2 | RAlt r1 r2 =>
      consumes_no_LF ignoreCase r1 && consumes_no_LF ignoreCase r2
  | RGroup r1 => consumes_no_LF ignoreCase r1
  end.




(* ================================================================== *)
(** * The index file of the package (build-npm-lib.js)                  *)
(* ================================================================== *)

(** [s.endsWith(suffix)] *)
Definition endsWith (s suffix : string) : bool :=
  (String.length suffix <=? String.length s)%nat
  && String.eqb
       (substring (String.length s - String.length suffix)
          (String.length suffix) s)
       suffix.

(** A source file with the path it was loaded from. *)
Record ProjectFile : Type := mkProjectFile {
  file_path : string;
  file_source : SourceFile
}.

(** An element of an array inside [Array.prototype.join]: [undefined]
    gives the empty string. *)
Definition join_element (o : option string) : string :=
  match o with
  | Some s => s
  | None => EmptyString
  end.

(** [`export { ${exports.join(', ')} } from './${fileName}.js'`] *)
Definition exportStatement (exports : list (option string)) (fileName : string)
  : string :=
  "export { " ++ join ", " (map join_element exports)
  ++ " } from './" ++ fileName ++ ".js'".

Section IndexFile.

(** [basename(path, suffix)] of the path module of the host. *)
Variable basename : string -> string -> string.

(** The lines that the loop of [generateIndexFile] pushes for one
    file. *)
Definition indexExportLines (sourceFile : ProjectFile) : list string :=
  let fileName := basename (file_path sourceFile) ".ts" in
  if negb (endsWith (file_path sourceFile) ".ts") then []
  else
    let exportedTypes :=
      filter alias_exported (getTypeAliases (file_source sourceFile)) in
    let exportedFunctions :=
      filter fn_exported (getFunctions (file_source sourceFile)) in
    if (0 <? List.length exportedTypes)%nat
       || (0 <? List.length exportedFunctions)%nat
    then
      let exports :=
        (map (fun t => Some (alias_name t)) exportedTypes
         ++ map fn_name exportedFunctions)%list in
      [exportStatement exports fileName]
    else [].

Definition indexLines (sourceFiles : list ProjectFile) : list string :=
  ["/**";
   " * Google Apps Script Utility Library";
   " * ";
   " * This package provides utility functions for Google Apps Script development.";
   " * It can be bundled directly into your GAS project using a build tool.";
   " */";
   ""]
  ++ flat_map indexExportLines sourceFiles
  ++ [""; "// Re-export everything as a default object for convenience";
      "export * as default from './index.js'"].

Definition generateIndexFile (sourceFiles : list ProjectFile) : string :=
  join (String LF EmptyString) (indexLines sourceFiles).

End IndexFile.

(* ================================================================== *)
(** * The imports that a user project makes (part_002, second script)   *)
(* ================================================================== *)

Record ImportDeclaration : Type := mkImport {
  moduleSpecifierValue : string;
  namedImports : list string;
  namespaceImport : option string
}.

(** What [getImportDeclarations] gives for a user file. *)
Definition UserFile := list ImportDeclaration.

(** A [Set] of strings keeps its elements in the order of their first
    insertion. *)
Definition StringSet := list string.

Definition set_has (s : StringSet) (x : string) : bool :=
  existsb (String.eqb x) s.

Definition set_add (s : StringSet) (x : string) : StringSet :=
  if set_has s x then s else (s ++ [x])%list.

Definition from_utility_package (moduleSpecifier : string) : bool :=
  String.eqb moduleSpecifier "@your-org/gas-utils"
  || endsWith moduleSpecifier "/gas-utils".

Definition addImport (usedExports : StringSet) (imp : ImportDeclaration)
  : StringSet :=
  if from_utility_package (moduleSpecifierValue imp) then
    let named := fold_left set_add (namedImports imp) usedExports in
    match namespaceImport imp with
    | Some _ => set_add named "*"
    | None => named
    end
  else usedExports.

Definition findUsedUtilityExports (userFiles : list UserFile) : StringSet :=
  fold_left (fun usedExports file => fold_left addImport file usedExports)
    userFiles [].

(** A source file none of whose declarations is exported. *)
Definition exports_nothing (sourceFile : SourceFile) : bool :=
  forallb (fun st =>
             match st with
             | StTypeAlias a => negb (alias_exported a)
             | StFunction f => negb (fn_exported f)
             | StOther _ => true
             end) sourceFile.

(** Whether every match of a pattern ends by setting the capture. *)
Fixpoint sets_group (r : Regex) : bool :=
  match r with
  | RGroup _ => true
  | RSeq _ r2 => sets_group r2
  | RAlt r1 r2 => sets_group r1 && sets_group r2
  | _ => false
  end.

(** Whether the capture of every match of a pattern is without a line
    feed. *)
Fixpoint captures_no_LF (ignoreCase : bool) (r : Regex) : bool :=
  match r with
  | RGroup r1 => consumes_no_LF ignoreCase r1
  | RSeq _ r2 => captures_no_LF ignoreCase r2
  | RAlt r1 r2 => captures_no_LF ignoreCase r1 && captures_no_LF ignoreCase r2
  | _ => false
  end.

(** Texts of one line. *)
Definition one_line (s : string) : bool := negb (occurs LF s).

(** A type record whose name and definition take one line each. *)
Definition type_on_one_line (type : TypeRec) : bool :=
  one_line (type_name type) && one_line (type_definition type).

(** A parameter whose name is an identifier and whose type takes one
    line. *)
Definition param_on_one_line (param : ParameterNode) : bool :=
  is_identifier (param_name param)
  && one_line (text_or_any (param_typeNode param)).

(** A function record whose name, parameters and return type take one line
    each, and whose documentation comment is without a backslash. *)
Definition func_on_one_line (func : FuncRec) : bool :=
  one_line (template_of (func_name func))
  && forallb param_on_one_line (func_parameters func)
  && one_line (func_returnType func)
  && match func_comment func with
     | Some comment => negb (occurs backslash comment)
     | None => true
     end.

(** Facts about one character are settled by running through the
    characters. *)
Ltac ascii_cases c :=
  destruct c as [[] [] [] [] [] [] [] []]; vm_compute;
  try reflexivity; try discriminate; intros; try reflexivity; try discriminate.

(* ================================================================== *)
(** * Properties of the date helpers                                    *)
(* ================================================================== *)

Section DateProperties.

Variable Date_parse : string -> TimeValue.

Lemma toDate_null_or_undefined (v def : JsValue) (h : Ref) :
  loose_eq_null v = true -> toDate Date_parse v def h = (Normal def, h).
Proof.
  intros Hv. unfold toDate. rewrite Hv. reflexivity.
Qed.

Lemma toDate_date (d : DateObj) (def : JsValue) (h : Ref) :
  toDate Date_parse (JDate d) def h
  = (Normal (if Number_isNaN (date_value d) then def else JDate d), h).
Proof. reflexivity. Qed.

Lemma toDate_primitive (v def : JsValue) (h : Ref) :
  typeof v = TyString \/ typeof v = TyNumber ->
  toDate Date_parse v def h
  = (Normal (match Date_time_of Date_parse v with
             | Some t => JDate (mkDate h (Some t))
             | None => def
             end), S h).
Proof.
  intros [Hv | Hv]; destruct v; try discriminate Hv;
    unfold toDate, new_Date, bind, fresh, ret; simpl.
  - destruct (Date_parse s); reflexivity.
  - destruct (TimeClip x); reflexivity.
Qed.

Lemma toDate_other (v def : JsValue) (h : Ref) :
  (exists b, v = JBoolean b) \/ (exists r, v = JObject r) ->
  toDate Date_parse v def h = (Normal def, h).
Proof.
  intros [[b ->] | [r ->]]; reflexivity.
Qed.

(** On a value that passes [instanceof Date] without being a Date, the
    call of [getTime] throws. *)
Lemma toDate_date_like (r : Ref) (def : JsValue) (h : Ref) :
  toDate Date_parse (JDateLike r) def h
  = (Throw (TypeError "this is not a Date object."), h).
Proof. reflexivity. Qed.

Lemma date_like_inv (v : JsValue) :
  date_like v = true -> exists r, v = JDateLike r.
Proof.
  destruct v; try discriminate. intros _. eexists. reflexivity.
Qed.

Lemma toDate_result (v def : JsValue) (h : Ref) :
  date_like v = false ->
  exists r h', toDate Date_parse v def h = (Normal r, h')
               /\ (r = def \/ exists d t, r = JDate d /\ date_value d = Some t).
Proof.
  intros Hv. destruct v as [ | | b | x | s | d | o | o]; [ | | | | | | | discriminate Hv].
  - exists def, h. split; [reflexivity | now left].
  - exists def, h. split; [reflexivity | now left].
  - exists def, h. split; [reflexivity | now left].
  - rewrite toDate_primitive by (right; reflexivity).
    destruct (Date_time_of Date_parse (JNumber x)) as [t | ].
    + exists (JDate (mkDate h (Some t))), (S h).
      split; [reflexivity | right; eexists; eexists; split; reflexivity].
    + exists def, (S h). split; [reflexivity | now left].
  - rewrite toDate_primitive by (left; reflexivity).
    destruct (Date_time_of Date_parse (JString s)) as [t | ].
    + exists (JDate (mkDate h (Some t))), (S h).
      split; [reflexivity | right; eexists; eexists; split; reflexivity].
    + exists def, (S h). split; [reflexivity | now left].
  - rewrite toDate_date. destruct d as [r [t | ]]; simpl.
    + exists (JDate (mkDate r (Some t))), h.
      split; [reflexivity | right; eexists; eexists; split; reflexivity].
    + exists def, h. split; [reflexivity | now left].
  - exists def, h. split; [reflexivity | now left].
Qed.

(** A call of [toDate] that returns was not made on a [JDateLike]. *)
Lemma toDate_normal (v def r : JsValue) (h h' : Ref) :
  toDate Date_parse v def h = (Normal r, h') -> date_like v = false.
Proof.
  destruct v; try reflexivity. rewrite toDate_date_like. discriminate.
Qed.

(** When [toDate] throws, [toDateStrict] throws the same. *)
Lemma toDateStrict_throw (v def : JsValue) (e : JsError) (h h' : Ref) :
  toDate Date_parse v def h = (Throw e, h') ->
  toDateStrict Date_parse v def h = (Throw e, h').
Proof.
  intros He. unfold toDateStrict, bind. rewrite He. reflexivity.
Qed.

(** C1, as amended.  A Date object with a valid time value is returned
    itself; a number or a string whose interpretation as a date is a valid
    time value gives a new Date with that time value; null, undefined, and
    any Date object, number or string whose interpretation is the invalid
    time value give the default (undefined when none was supplied).  The
    three examples of scenario B hold on a host that parses '2023-01-01'
    and rejects 'not-a-date'. *)
Theorem toDate_spec (v def : JsValue) (h : Ref) (t : Z) (fallback : DateObj) :
  Date_parse "2023-01-01" = Some t ->
  Date_parse "not-a-date" = None ->
  (forall d, v = JDate d -> date_value d <> None ->
             toDate Date_parse v def h = (Normal v, h))
  /\ (forall t', typeof v = TyNumber \/ typeof v = TyString ->
                 Date_time_of Date_parse v = Some t' ->
                 exists d, toDate Date_parse v def h = (Normal (JDate d), S h)
                           /\ date_value d = Some t' /\ date_ref d = h)
  /\ (v = JNull \/ v = JUndefined ->
      toDate Date_parse v def h = (Normal def, h))
  /\ ((exists d, v = JDate d) \/ typeof v = TyNumber \/ typeof v = TyString ->
      Date_time_of Date_parse v = None ->
      fst (toDate Date_parse v def h) = Normal def)
  /\ fst (toDate Date_parse JNull JUndefined h) = Normal JUndefined
  /\ (exists d d',
        fst (toDate Date_parse (JString "2023-01-01") JUndefined h) = Normal (JDate d)
        /\ fst (new_Date Date_parse (JString "2023-01-01") h) = Normal (JDate d')
        /\ date_value d = date_value d' /\ date_value d = Some t)
  /\ fst (toDate Date_parse (JString "not-a-date") (JDate fallback) h)
     = Normal (JDate fallback).
Proof.
  intros Hgood Hbad.
  split; [ | split; [ | split; [ | split; [ | split; [ | split]]]]].
  - intros d -> Hd. rewrite toDate_date.
    destruct (date_value d); [reflexivity | contradiction].
  - intros t' Hty Ht. rewrite toDate_primitive by tauto. rewrite Ht.
    eexists. split; [reflexivity | split; reflexivity].
  - intros [-> | ->]; reflexivity.
  - intros [(d & ->) | Hty] Ht.
    + rewrite toDate_date. simpl in Ht. rewrite Ht. reflexivity.
    + rewrite toDate_primitive by tauto. rewrite Ht. reflexivity.
  - reflexivity.
  - rewrite toDate_primitive by (left; reflexivity). simpl. rewrite Hgood.
    unfold new_Date, bind, fresh, ret; simpl. rewrite ?Hgood.
    eexists; eexists.
    split; [reflexivity | split; [reflexivity | split; reflexivity]].
  - rewrite toDate_primitive by (left; reflexivity). simpl. rewrite Hbad.
    reflexivity.
Qed.

(** C2.  [toDateStrict] gives what [toDate] gives when that is defined, and
    throws a TypeError when it is undefined; [toDate] gives a value unless
    the input passes [instanceof Date] without being a Date, and what
    [toDate] throws, [toDateStrict] throws.  On a host that rejects
    'bad-input', the call without a default throws a TypeError and the call
    with a fallback returns the fallback. *)
Theorem toDateStrict_spec (v def : JsValue) (h : Ref) (fallback : DateObj) :
  Date_parse "bad-input" = None ->
  (date_like v = false ->
   exists r h',
      toDate Date_parse v def h = (Normal r, h')
      /\ (r <> JUndefined -> toDateStrict Date_parse v def h = (Normal r, h'))
      /\ (r = JUndefined ->
          exists msg, toDateStrict Date_parse v def h = (Throw (TypeError msg), h')))
  /\ (forall e h', toDate Date_parse v def h = (Throw e, h') ->
                   toDateStrict Date_parse v def h = (Throw e, h'))
  /\ (exists msg h',
        toDateStrict Date_parse (JString "bad-input") JUndefined h
        = (Throw (TypeError msg), h'))
  /\ fst (toDateStrict Date_parse (JString "bad-input") (JDate fallback) h)
     = Normal (JDate fallback).
Proof.
  intros Hbad. split; [ | split; [ | split]].
  - intros Hv. destruct (toDate_result v def h Hv) as (r & h' & Hr & _).
    exists r, h'. split; [exact Hr | ]. unfold toDateStrict, bind. rewrite Hr.
    split.
    + intros Hdef. destruct r; try reflexivity. contradiction.
    + intros ->. eexists. reflexivity.
  - intros e h' He. unfold toDateStrict, bind. rewrite He. reflexivity.
  - unfold toDateStrict, bind.
    rewrite toDate_primitive by (left; reflexivity). simpl. rewrite Hbad.
    eexists; eexists; reflexivity.
  - unfold toDateStrict, bind.
    rewrite toDate_primitive by (left; reflexivity). simpl. rewrite Hbad.
    reflexivity.
Qed.

(** C3, as amended.  On a value that is a Date object or does not pass
    [instanceof Date], [isDate] returns, and returns true exactly on a Date
    object whose time value is not NaN; it is false on every value that
    does not pass [instanceof Date] and, on a host that rejects 'bad', on
    [new Date('bad')].  On a value that passes [instanceof Date] without
    being a Date, [isDate] throws a TypeError. *)
Theorem isDate_spec (v : JsValue) (h : Ref) :
  Date_parse "bad" = None ->
  (date_like v = false ->
   exists b, isDate v h = (Normal b, h)
             /\ (b = true <-> exists d t, v = JDate d /\ date_value d = Some t))
  /\ (date_like v = true ->
      exists msg, isDate v h = (Throw (TypeError msg), h))
  /\ (instanceof_Date v = false -> isDate v h = (Normal false, h))
  /\ fst ((d <- new_Date Date_parse (JString "bad") ;; isDate d) h) = Normal false.
Proof.
  intros Hbad. split; [ | split; [ | split]].
  - intros Hlike.
    destruct v as [ | | b | x | s | [r [t | ]] | o | o]; try discriminate Hlike;
      try (exists false; split; [reflexivity | ];
           split; [discriminate | intros (d & t' & Hv & Ht); try discriminate Hv]).
    + exists true. split; [reflexivity | ].
      split; [intros _; eexists; eexists; split; reflexivity | reflexivity].
    + injection Hv as <-. discriminate Ht.
  - intros Hlike. destruct (date_like_inv v Hlike) as (r & ->).
    eexists. reflexivity.
  - intros Hv. destruct v; try reflexivity; discriminate Hv.
  - unfold new_Date, bind, fresh, ret; simpl. rewrite Hbad. reflexivity.
Qed.

(** C4, as amended.  On every value that is a Date object or does not pass
    [instanceof Date], and every default, [toDate] returns normally, and
    what it returns is the default or a Date.  On a value that passes
    [instanceof Date] without being a Date it throws the TypeError of
    [getTime], whatever the default. *)
Theorem toDate_throws_on_date_like_only (v def : JsValue) (h : Ref) :
  (date_like v = false ->
   exists r h', toDate Date_parse v def h = (Normal r, h')
                /\ (r = def \/ exists d, r = JDate d))
  /\ (date_like v = true ->
      exists msg, toDate Date_parse v def h = (Throw (TypeError msg), h)).
Proof.
  split.
  - intros Hv.
    destruct (toDate_result v def h Hv) as (r & h' & Hr & [Hdef | (d & t & Hd & _)]).
    + exists r, h'. split; [exact Hr | now left].
    + exists r, h'. split; [exact Hr | right; eauto].
  - intros Hv. destruct (date_like_inv v Hv) as (r & ->).
    eexists. apply toDate_date_like.
Qed.

(** C9.  On a Date object [toDate] follows [isDate]: the object itself when
    [isDate] holds, the default when it does not; whatever the input,
    unless it passes [instanceof Date] without being a Date (then [toDate]
    and [isDate] throw alike), the result is the default or a value on
    which [isDate] holds. *)
Theorem toDate_agrees_with_isDate (d : DateObj) (v def : JsValue) (h : Ref) :
  (exists b, isDate (JDate d) h = (Normal b, h)
             /\ toDate Date_parse (JDate d) def h
                = (Normal (if b then JDate d else def), h))
  /\ ((exists r h', toDate Date_parse v def h = (Normal r, h')
                    /\ (r = def \/ isDate r h' = (Normal true, h')))
      \/ (date_like v = true
          /\ exists e, toDate Date_parse v def h = (Throw e, h)
                       /\ isDate v h = (Throw e, h))).
Proof.
  split.
  - rewrite toDate_date. destruct d as [r [t | ]]; simpl.
    + exists true. split; reflexivity.
    + exists false. split; reflexivity.
  - destruct (date_like v) eqn:Hv.
    + right. split; [reflexivity | ].
      destruct (date_like_inv v Hv) as (r & ->).
      eexists. split; reflexivity.
    + left.
      destruct (toDate_result v def h Hv) as (r & h' & Hr & [Hdef | (d' & t & -> & Ht)]).
      * exists r, h'. split; [exact Hr | now left].
      * eexists; eexists. split; [exact Hr | right].
        unfold isDate, bind, ret; simpl. rewrite Ht. reflexivity.
Qed.

(** C10, as amended.  With a Date as the default, [toDateStrict] returns a
    Date for every value that is a Date object or does not pass
    [instanceof Date]; whatever the default, a call on such a value either
    returns normally or was made without a default.  On a value that passes
    [instanceof Date] without being a Date it throws the TypeError of
    [getTime], also with a Date as the default. *)
Theorem toDateStrict_with_default (v def : JsValue) (d : DateObj) (h : Ref) :
  (date_like v = false ->
   exists r h', toDateStrict Date_parse v (JDate d) h = (Normal (JDate r), h'))
  /\ (date_like v = false ->
      def = JUndefined
      \/ exists r h', toDateStrict Date_parse v def h = (Normal r, h'))
  /\ (date_like v = true ->
      exists msg, toDateStrict Date_parse v def h = (Throw (TypeError msg), h)
                  /\ msg <> "Value cannot be converted to Date").
Proof.
  split; [ | split].
  - intros Hv. destruct (toDate_result v (JDate d) h Hv) as (r & h' & Hr & Hcase).
    unfold toDateStrict, bind. rewrite Hr.
    destruct Hcase as [-> | (d' & t & -> & _)]; eexists; eexists; reflexivity.
  - intros Hv. destruct (toDate_result v def h Hv) as (r & h' & Hr & Hcase).
    unfold toDateStrict, bind. rewrite Hr.
    destruct Hcase as [-> | (d' & t & -> & _)].
    + destruct def; try (right; eexists; eexists; reflexivity). now left.
    + right. eexists; eexists; reflexivity.
  - intros Hv. destruct (date_like_inv v Hv) as (r & ->).
    eexists. split; [apply toDateStrict_throw, toDate_date_like | discriminate].
Qed.

End DateProperties.

(** C1, as stated, fails: the number NaN is a number and a Date object with
    the invalid time value is a Date object, and without a default [toDate]
    returns undefined on both. *)
Lemma toDate_invalid_counterexample :
  toDate Date_parse_iso (JNumber S754_nan) JUndefined 0 = (Normal JUndefined, 1)
  /\ toDate Date_parse_iso (JDate (mkDate 0 None)) JUndefined 1
     = (Normal JUndefined, 1)
  /\ ~ (forall v def h,
          instanceof_Date v = true \/ typeof v = TyNumber ->
          exists d h', toDate Date_parse_iso v def h = (Normal (JDate d), h')).
Proof.
  split; [reflexivity | ]. split; [reflexivity | ].
  intros Hall.
  destruct (Hall (JNumber S754_nan) JUndefined 0) as (d & h' & Hd).
  - right; reflexivity.
  - discriminate Hd.
Qed.

(** The amended C1 on the host of the examples. *)
Lemma toDate_spec_witness :
  Date_parse_iso "2023-01-01" = Some 1672531200000%Z
  /\ Date_parse_iso "not-a-date" = None
  /\ fst (toDate Date_parse_iso (JString "not-a-date")
            (JDate (mkDate 0 (Some 0%Z))) 1)
     = Normal (JDate (mkDate 0 (Some 0%Z))).
Proof.
  split; [reflexivity | ]. split; [reflexivity | ].
  apply (toDate_spec Date_parse_iso (JNumber (S754_finite false 3 (-1))) JUndefined
           1 1672531200000%Z (mkDate 0 (Some 0%Z)));
    reflexivity.
Defined.

(** C2 on the host of the examples. *)
Lemma toDateStrict_spec_witness :
  Date_parse_iso "bad-input" = None
  /\ fst (toDateStrict Date_parse_iso (JString "bad-input")
            (JDate (mkDate 0 (Some 0%Z))) 1)
     = Normal (JDate (mkDate 0 (Some 0%Z))).
Proof.
  split; [reflexivity | ].
  apply (toDateStrict_spec Date_parse_iso (JString "bad-input") JUndefined
           1 (mkDate 0 (Some 0%Z)));
    reflexivity.
Defined.

(** C3, as stated, fails: the object [Object.create(Date.prototype)] is not
    a Date, and [isDate] does not return false on it: the call of [getTime]
    throws. *)
Lemma isDate_throws_counterexample :
  typeof (JDateLike 0) = TyObject
  /\ instanceof_Date (JDateLike 0) = true
  /\ isDate (JDateLike 0) 1 = (Throw (TypeError "this is not a Date object."), 1)
  /\ ~ (forall v h, exists b, isDate v h = (Normal b, h)).
Proof.
  split; [reflexivity | ]. split; [reflexivity | ]. split; [reflexivity | ].
  intros Hall. destruct (Hall (JDateLike 0) 1) as (b & Hb). discriminate Hb.
Qed.

(** The amended C3 on the host of the examples. *)
Lemma isDate_spec_witness :
  Date_parse_iso "bad" = None
  /\ date_like (JDate (mkDate 0 (Some 0%Z))) = false
  /\ exists b, isDate (JDate (mkDate 0 (Some 0%Z))) 1 = (Normal b, 1)
               /\ (b = true <-> exists d t, JDate (mkDate 0 (Some 0%Z)) = JDate d
                                            /\ date_value d = Some t).
Proof.
  split; [reflexivity | ]. split; [reflexivity | ].
  apply (isDate_spec Date_parse_iso (JDate (mkDate 0 (Some 0%Z))) 1); reflexivity.
Defined.

(** C4, as stated, fails: on [Object.create(Date.prototype)] the call of
    [toDate] throws, with a default and without. *)
Lemma toDate_throws_counterexample :
  toDate Date_parse_iso (JDateLike 0) JUndefined 1
  = (Throw (TypeError "this is not a Date object."), 1)
  /\ toDate Date_parse_iso (JDateLike 0) (JDate (mkDate 2 (Some 0%Z))) 1
     = (Throw (TypeError "this is not a Date object."), 1)
  /\ ~ (forall v def h, exists r h', toDate Date_parse_iso v def h = (Normal r, h')).
Proof.
  split; [reflexivity | ]. split; [reflexivity | ].
  intros Hall. destruct (Hall (JDateLike 0) JUndefined 1) as (r & h' & Hr).
  discriminate Hr.
Qed.

(** The amended C4 on a string that is not a date. *)
Lemma toDate_throws_on_date_like_only_witness :
  date_like (JString "bad") = false
  /\ exists r h', toDate Date_parse_iso (JString "bad") JNull 1 = (Normal r, h')
                  /\ (r = JNull \/ exists d, r = JDate d).
Proof.
  split; [reflexivity | ].
  apply (toDate_throws_on_date_like_only Date_parse_iso (JString "bad") JNull 1).
  reflexivity.
Defined.

(** C10, as stated, fails: a Date is supplied as the default, and the call
    on [Object.create(Date.prototype)] throws. *)
Lemma toDateStrict_throws_counterexample :
  toDateStrict Date_parse_iso (JDateLike 0) (JDate (mkDate 2 (Some 0%Z))) 1
  = (Throw (TypeError "this is not a Date object."), 1)
  /\ ~ (forall v d h, exists r h',
          toDateStrict Date_parse_iso v (JDate d) h = (Normal r, h')).
Proof.
  split; [reflexivity | ].
  intros Hall.
  destruct (Hall (JDateLike 0) (mkDate 2 (Some 0%Z)) 1) as (r & h' & Hr).
  discriminate Hr.
Qed.

(** The amended C10 on a string that is not a date. *)
Lemma toDateStrict_with_default_witness :
  date_like (JString "bad") = false
  /\ exists r h',
       toDateStrict Date_parse_iso (JString "bad") (JDate (mkDate 0 (Some 0%Z))) 1
       = (Normal (JDate r), h').
Proof.
  split; [reflexivity | ].
  apply (toDateStrict_with_default Date_parse_iso (JString "bad") JUndefined
           (mkDate 0 (Some 0%Z)) 1).
  reflexivity.
Defined.

(* ================================================================== *)
(** * Properties of the export extractor                                *)
(* ================================================================== *)

Lemma filters_Extracted (sf : SourceFile) :
  Extracted sf (filter alias_exported (getTypeAliases sf))
    (filter fn_exported (getFunctions sf)).
Proof.
  induction sf as [ | [a | f | text] sf IH]; simpl.
  - constructor.
  - destruct (alias_exported a) eqn:Ha; constructor; assumption.
  - destruct (fn_exported f) eqn:Hf; constructor; assumption.
  - constructor; assumption.
Qed.

(** A file determines what is extracted from it. *)
Lemma Extracted_functional (sf : SourceFile) ts fs ts' fs' :
  Extracted sf ts fs -> Extracted sf ts' fs' -> ts = ts' /\ fs = fs'.
Proof.
  intros H. revert ts' fs'.
  induction H; intros ts' fs' H'; inversion H'; subst;
    try congruence;
    try (destruct (IHExtracted _ _ ltac:(eassumption)) as [-> ->]; now split).
  now split.
Qed.

Lemma Extracted_names (sf : SourceFile) ts fs :
  Extracted sf ts fs ->
  forall n, In n (exportedNamesInSourceOrder sf)
            <-> In n (map (fun a => Some (alias_name a)) ts ++ map fn_name fs).
Proof.
  induction 1 as [ | a sf ts fs Ha _ IH | a sf ts fs Ha _ IH
                   | f sf ts fs Hf _ IH | f sf ts fs Hf _ IH | text sf ts fs _ IH];
    intros n; simpl; rewrite ?Ha, ?Hf; simpl; try apply IH; try tauto.
  - rewrite IH. tauto.
  - rewrite IH, !in_app_iff. simpl. tauto.
Qed.

Lemma mapM_interfaceRecord (fs : list FunctionNode) (h : Ref) :
  exists l,
    mapM interfaceRecord fs h = (Normal l, h + List.length fs)
    /\ map iface_ref l = seq h (List.length fs)
    /\ map iface_name l = map fn_name fs
    /\ map iface_signature l = map functionSignature fs
    /\ map iface_comment l = map (fun f => extractJSDocComment (fn_jsDocs f)) fs.
Proof.
  revert h. induction fs as [ | f fs IH]; intros h.
  - exists []. simpl. unfold ret. rewrite Nat.add_0_r. repeat split.
  - destruct (IH (S h)) as (l & Hl & Hr & Hn & Hs & Hc).
    exists ({| iface_ref := h;
               iface_name := fn_name f;
               iface_signature := functionSignature f;
               iface_comment := extractJSDocComment (fn_jsDocs f) |} :: l).
    split.
    + cbn [mapM]. unfold bind at 1. unfold interfaceRecord at 1.
      unfold bind at 1. unfold fresh, ret at 1. unfold bind at 1.
      rewrite Hl. unfold ret. cbn [List.length]. rewrite Nat.add_succ_r.
      reflexivity.
    + cbn [map List.length seq iface_ref iface_name iface_signature iface_comment].
      rewrite Hr, Hn, Hs, Hc. repeat split.
Qed.

(** C6, as amended.  The extractor returns two lists: the records of the
    exported type aliases and the records of the exported functions.  Each
    holds exactly the exported declarations of its kind, in the order of
    the file; declarations that are not exported are left out and nothing
    fails.  The loop of [buildTypes] collects the same declarations. *)
Theorem extractExportsFromFile_spec (sf : SourceFile) (h : Ref) :
  exists tnodes fnodes,
    Extracted sf tnodes fnodes
    /\ types (extractExportsFromFile sf) = map typeRecord tnodes
    /\ functions (extractExportsFromFile sf) = map functionRecord fnodes
    /\ map func_funcNode (functions (extractExportsFromFile sf)) = fnodes
    /\ recordNames (extractExportsFromFile sf)
       = (map (fun a => Some (alias_name a)) tnodes ++ map fn_name fnodes)%list
    /\ (forall n, In n (recordNames (extractExportsFromFile sf))
                  <-> In n (exportedNamesInSourceOrder sf))
    /\ exists interfaces,
         collectExports [sf] [] [] h
         = (Normal (map typeRecord tnodes, interfaces), h + List.length fnodes)
         /\ map iface_name interfaces = map fn_name fnodes
         /\ map iface_signature interfaces = map functionSignature fnodes.
Proof.
  exists (filter alias_exported (getTypeAliases sf)),
         (filter fn_exported (getFunctions sf)).
  assert (Hnames : recordNames (extractExportsFromFile sf)
                   = (map (fun a => Some (alias_name a))
                        (filter alias_exported (getTypeAliases sf))
                      ++ map fn_name (filter fn_exported (getFunctions sf)))%list).
  { unfold recordNames, extractExportsFromFile. simpl.
    rewrite !map_map. reflexivity. }
  split; [apply filters_Extracted | ].
  split; [reflexivity | ]. split; [reflexivity | ].
  split; [simpl; rewrite map_map; apply map_id | ].
  split; [exact Hnames | ].
  split.
  - intros n. rewrite Hnames. symmetry.
    apply Extracted_names, filters_Extracted.
  - destruct (mapM_interfaceRecord (filter fn_exported (getFunctions sf)) h)
      as (l & Hl & _ & Hn & Hs & _).
    exists l. simpl. unfold bind. rewrite Hl. unfold ret. simpl.
    repeat split; assumption.
Qed.

(** C6, as stated, fails: [isDate] is declared before [DateValue], and the
    record of [DateValue] comes first. *)
Lemma extract_order_counterexample :
  exportedNamesInSourceOrder function_first_ts = [Some "isDate"; Some "DateValue"]
  /\ recordNames (extractExportsFromFile function_first_ts)
     = [Some "DateValue"; Some "isDate"]
  /\ recordNames (extractExportsFromFile function_first_ts)
     <> exportedNamesInSourceOrder function_first_ts.
Proof.
  split; [reflexivity | ]. split; [reflexivity | ]. discriminate.
Qed.

(* ================================================================== *)
(** * Properties of the declaration-block renderer                      *)
(* ================================================================== *)

Lemma string_app_assoc (a b c : string) : (a ++ b) ++ c = a ++ b ++ c.
Proof.
  induction a as [ | x a IH]; simpl; [reflexivity | now rewrite IH].
Qed.

Lemma join_cons_cons (sep x y : string) (l : list string) :
  join sep (x :: y :: l) = x ++ sep ++ join sep (y :: l).
Proof. reflexivity. Qed.

(** The text before a line that is not the first. *)
Lemma join_app_cons (sep : string) (l1 : list string) (x : string) (l2 : list string) :
  exists pre, join sep (l1 ++ x :: l2) = pre ++ join sep (x :: l2).
Proof.
  induction l1 as [ | a l1 [pre IH]].
  - exists EmptyString. reflexivity.
  - exists (a ++ sep ++ pre).
    change ((a :: l1) ++ x :: l2)%list with (a :: (l1 ++ x :: l2))%list.
    destruct (l1 ++ x :: l2)%list as [ | b l] eqn:E.
    + destruct l1; discriminate E.
    + rewrite join_cons_cons, IH, !string_app_assoc. reflexivity.
Qed.

Lemma join_cons_head (sep x : string) (l : list string) :
  exists post, join sep (x :: l) = x ++ post.
Proof.
  destruct l as [ | y l].
  - exists EmptyString. simpl. induction x; simpl; congruence.
  - exists (sep ++ join sep (y :: l)). reflexivity.
Qed.

(** Two lines of a joined text occur in it in the order of the lines. *)
Lemma join_two_lines (sep : string) (l1 l2 l3 : list string) (x y : string) :
  exists pre mid post,
    join sep (l1 ++ x :: l2 ++ y :: l3) = pre ++ x ++ mid ++ y ++ post.
Proof.
  destruct (join_app_cons sep l1 x (l2 ++ y :: l3)) as [pre Hpre].
  destruct (join_app_cons sep l2 y l3) as [mid Hmid].
  destruct (join_cons_head sep y l3) as [post Hpost].
  exists pre, (sep ++ mid), post.
  rewrite Hpre.
  destruct (l2 ++ y :: l3)%list as [ | b l] eqn:E.
  - destruct l2; discriminate E.
  - rewrite join_cons_cons, Hmid, Hpost, !string_app_assoc. reflexivity.
Qed.

(** C7.  Scenario A: a source that exports the type alias [DateValue] and
    the function [isDate(value: unknown): boolean], whatever their
    documentation comments.  The declaration block has the type member in
    the namespace and the method in the interface block, the type member
    first; so has the text. *)
Theorem scenarioA_declaration_block (aliasDocs funcDocs : list string) (h : Ref) :
  exists types interfaces typeDoc funcDoc pre mid post,
    collectExports [scenarioA_ts aliasDocs funcDocs] [] [] h
    = (Normal (types, interfaces), S h)
    /\ buildTypes_outputContent [scenarioA_ts aliasDocs funcDocs] h
       = (Normal (generateTypeDeclarations types interfaces), S h)
    /\ declarationLines types interfaces
       = (["declare namespace Lib {"; "  namespace Utils {"]
          ++ typeDoc
          ++ ["    type DateValue = Date | number | string | null | undefined";
              ""; "    interface Utils {"]
          ++ funcDoc
          ++ ["      isDate(value: unknown): boolean";
              "    }"; "  }"; "}"; ""; "declare var Utils: Lib.Utils.Utils"; ""])%list
    /\ generateTypeDeclarations types interfaces
       = pre ++ "    type DateValue = Date | number | string | null | undefined"
         ++ mid ++ "      isDate(value: unknown): boolean" ++ post.
Proof.
  set (type := {| type_name := "DateValue";
                  type_definition := "Date | number | string | null | undefined";
                  type_comment := extractJSDocComment aliasDocs |}).
  set (func := {| iface_ref := h;
                  iface_name := Some "isDate";
                  iface_signature := "isDate(value: unknown): boolean";
                  iface_comment := extractJSDocComment funcDocs |}).
  set (typeDoc :=
         if truthy_opt (type_comment type) then
           if truthy (trim (extractCleanComment (type_comment type)))
           then ["    /**"; "     * " ++ extractCleanComment (type_comment type);
                 "     */"]
           else []
         else []).
  set (funcDoc :=
         match iface_comment func with
         | Some comment =>
             if truthy comment then
               (["      /**"]
                ++ (if truthy (trim (extractCleanComment (Some comment)))
                    then [("       * " ++ extractCleanComment (Some comment))%string]
                    else [])
                ++ map (fun line => ("       * " ++ line)%string)
                     (filter isTagLine (filter truthy (trimmedLines comment)))
                ++ ["       */"])%list
             else []
         | None => []
         end).
  assert (Hlines :
    declarationLines [type] [func]
    = (["declare namespace Lib {"; "  namespace Utils {"]
       ++ typeDoc
       ++ ["    type DateValue = Date | number | string | null | undefined";
           ""; "    interface Utils {"]
       ++ funcDoc
       ++ ["      isDate(value: unknown): boolean";
           "    }"; "  }"; "}"; ""; "declare var Utils: Lib.Utils.Utils"; ""])%list).
  { unfold declarationLines, typeMember, interfaceMember, indexOf.
    cbn [flat_map indexOf_from List.length iface_ref func].
    rewrite Nat.eqb_refl. fold typeDoc. fold funcDoc.
    cbn [Z.of_nat Z.sub Z.ltb Z.compare Z.add Z.opp Z.pos_sub type_name
         type_definition iface_signature type func].
    rewrite !app_nil_r, <- !app_assoc. reflexivity. }
  destruct (join_two_lines (String LF EmptyString)
              (["declare namespace Lib {"; "  namespace Utils {"] ++ typeDoc)
              ([""; "    interface Utils {"] ++ funcDoc)
              ["    }"; "  }"; "}"; ""; "declare var Utils: Lib.Utils.Utils"; ""]
              "    type DateValue = Date | number | string | null | undefined"
              "      isDate(value: unknown): boolean")
    as (pre & mid & post & Hjoin).
  exists [type], [func], typeDoc, funcDoc, pre, mid, post.
  split; [reflexivity | ]. split; [reflexivity | ]. split; [exact Hlines | ].
  unfold generateTypeDeclarations. rewrite Hlines, <- Hjoin.
  rewrite <- !app_assoc. reflexivity.
Qed.

(* ------------------------------------------------------------------ *)
(** ** The output does not depend on the identities of the records     *)
(* ------------------------------------------------------------------ *)

Lemma indexOf_from_ext (l1 l2 : list IfaceRec) (a b : IfaceRec) (k : Z) :
  List.length l1 = List.length l2 ->
  (forall j x y, nth_error l1 j = Some x -> nth_error l2 j = Some y ->
                 Nat.eqb (iface_ref x) (iface_ref a)
                 = Nat.eqb (iface_ref y) (iface_ref b)) ->
  indexOf_from l1 a k = indexOf_from l2 b k.
Proof.
  revert l2 k. induction l1 as [ | x l1 IH]; intros [ | y l2] k Hlen Hext;
    try discriminate Hlen; [reflexivity | ].
  simpl. rewrite (Hext 0 x y eq_refl eq_refl).
  destruct (Nat.eqb (iface_ref y) (iface_ref b)); [reflexivity | ].
  apply IH.
  - now injection Hlen.
  - intros j x' y' Hx Hy. exact (Hext (S j) x' y' Hx Hy).
Qed.

Lemma flat_map_pointwise {A B} (f g : A -> list B) (l1 l2 : list A) :
  List.length l1 = List.length l2 ->
  (forall i a b, nth_error l1 i = Some a -> nth_error l2 i = Some b -> f a = g b) ->
  flat_map f l1 = flat_map g l2.
Proof.
  revert l2. induction l1 as [ | a l1 IH]; intros [ | b l2] Hlen Hfg;
    try discriminate Hlen; [reflexivity | ].
  simpl. rewrite (Hfg 0 a b eq_refl eq_refl). f_equal.
  apply IH.
  - now injection Hlen.
  - intros i a' b' Ha Hb. exact (Hfg (S i) a' b' Ha Hb).
Qed.

Lemma Forall2_nth_error {A B} (R : A -> B -> Prop) (l1 : list A) (l2 : list B) :
  Forall2 R l1 l2 ->
  forall i a b, nth_error l1 i = Some a -> nth_error l2 i = Some b -> R a b.
Proof.
  induction 1 as [ | x y l1 l2 Hxy _ IH]; intros [ | i] a b Ha Hb;
    try discriminate Ha; simpl in Ha, Hb.
  - injection Ha as <-. injection Hb as <-. exact Hxy.
  - eapply IH; eassumption.
Qed.

Lemma Forall2_length_eq {A B} (R : A -> B -> Prop) (l1 : list A) (l2 : list B) :
  Forall2 R l1 l2 -> List.length l1 = List.length l2.
Proof.
  induction 1; simpl; congruence.
Qed.

Lemma interfaceMember_content (l1 l2 : list IfaceRec) (a b : IfaceRec) :
  same_iface_content a b ->
  List.length l1 = List.length l2 ->
  indexOf l1 a = indexOf l2 b ->
  interfaceMember l1 a = interfaceMember l2 b.
Proof.
  intros (_ & Hs & Hc) Hlen Hidx. unfold interfaceMember.
  rewrite Hs, Hc, Hlen, Hidx. reflexivity.
Qed.

Lemma generateTypeDeclarations_content (types : list TypeRec)
    (l1 l2 : list IfaceRec) :
  Forall2 same_iface_content l1 l2 ->
  same_aliasing l1 l2 ->
  generateTypeDeclarations types l1 = generateTypeDeclarations types l2.
Proof.
  intros Hcontent Halias.
  pose proof (Forall2_length_eq _ _ _ Hcontent) as Hlen.
  unfold generateTypeDeclarations, declarationLines.
  rewrite (flat_map_pointwise (interfaceMember l1) (interfaceMember l2) l1 l2);
    [reflexivity | exact Hlen | ].
  intros i a b Ha Hb.
  apply interfaceMember_content;
    [exact (Forall2_nth_error _ _ _ Hcontent i a b Ha Hb) | exact Hlen | ].
  apply indexOf_from_ext; [exact Hlen | ].
  intros j x y Hx Hy.
  pose proof (Halias j i x a y b Hx Ha Hy Hb) as Hiff.
  destruct (Nat.eqb_spec (iface_ref x) (iface_ref a)) as [E | E];
    destruct (Nat.eqb_spec (iface_ref y) (iface_ref b)) as [E' | E'];
    tauto.
Qed.

Lemma functionBlock_content (f g : FuncRec) :
  same_func_content f g -> functionBlock f = functionBlock g.
Proof.
  intros (Hn & Hp & Hr & Hc). unfold functionBlock.
  rewrite Hn, Hp, Hr, Hc. reflexivity.
Qed.

Lemma generateJSDocFromExports_content (allTypes : list TypeRec)
    (fs1 fs2 : list FuncRec) :
  Forall2 same_func_content fs1 fs2 ->
  generateJSDocFromExports allTypes fs1 = generateJSDocFromExports allTypes fs2.
Proof.
  intros Hcontent.
  assert (Hblocks : flat_map functionBlock fs1 = flat_map functionBlock fs2).
  { induction Hcontent as [ | f g fs1 fs2 Hfg _ IH]; [reflexivity | ].
    cbn [flat_map]. now rewrite (functionBlock_content f g Hfg), IH. }
  assert (Hnames : map func_name fs1 = map func_name fs2).
  { clear Hblocks.
    induction Hcontent as [ | f g fs1 fs2 (Hn & _) _ IH]; [reflexivity | ].
    cbn [map]. now rewrite Hn, IH. }
  unfold generateJSDocFromExports, jsdocLines.
  rewrite Hblocks, Hnames. reflexivity.
Qed.

Lemma shifted_same_aliasing (h1 h2 : Ref) (l1 l2 : list IfaceRec) :
  Forall2 (shifted h1 h2) l1 l2 -> same_aliasing l1 l2.
Proof.
  intros H i j a b a' b' Ha Hb Ha' Hb'.
  destruct (Forall2_nth_error _ _ _ H i a a' Ha Ha') as [_ Hi].
  destruct (Forall2_nth_error _ _ _ H j b b' Hb Hb') as [_ Hj].
  lia.
Qed.

Lemma shifted_same_content (h1 h2 : Ref) (l1 l2 : list IfaceRec) :
  Forall2 (shifted h1 h2) l1 l2 -> Forall2 same_iface_content l1 l2.
Proof.
  induction 1 as [ | a b l1 l2 [Hab _] _ IH]; constructor; assumption.
Qed.

Lemma mapM_interfaceRecord_shifted (fs : list FunctionNode) (h1 h2 k : Ref) :
  exists l1 l2,
    mapM interfaceRecord fs (h1 + k) = (Normal l1, h1 + k + List.length fs)
    /\ mapM interfaceRecord fs (h2 + k) = (Normal l2, h2 + k + List.length fs)
    /\ Forall2 (shifted h1 h2) l1 l2.
Proof.
  revert k. induction fs as [ | f fs IH]; intros k.
  - exists [], []. simpl. unfold ret. rewrite !Nat.add_0_r.
    repeat split. constructor.
  - destruct (IH (S k)) as (l1 & l2 & H1 & H2 & Hsh).
    exists ({| iface_ref := h1 + k;
               iface_name := fn_name f;
               iface_signature := functionSignature f;
               iface_comment := extractJSDocComment (fn_jsDocs f) |} :: l1),
           ({| iface_ref := h2 + k;
               iface_name := fn_name f;
               iface_signature := functionSignature f;
               iface_comment := extractJSDocComment (fn_jsDocs f) |} :: l2).
    rewrite !Nat.add_succ_r in H1, H2.
    split; [ | split].
    + cbn [mapM]. unfold bind at 1. unfold interfaceRecord at 1.
      unfold bind at 1. unfold fresh, ret at 1. unfold bind at 1.
      rewrite H1. unfold ret. cbn [List.length]. rewrite !Nat.add_succ_r.
      reflexivity.
    + cbn [mapM]. unfold bind at 1. unfold interfaceRecord at 1.
      unfold bind at 1. unfold fresh, ret at 1. unfold bind at 1.
      rewrite H2. unfold ret. cbn [List.length]. rewrite !Nat.add_succ_r.
      reflexivity.
    + constructor; [ | exact Hsh].
      split; [repeat split | simpl; lia].
Qed.

Lemma collectExports_shifted (sourceFiles : list SourceFile) (h1 h2 : Ref) :
  forall (allTypes : list TypeRec) (i1 i2 : list IfaceRec) (k : Ref),
    Forall2 (shifted h1 h2) i1 i2 ->
    exists allTypes' l1 l2 k',
      collectExports sourceFiles allTypes i1 (h1 + k)
      = (Normal (allTypes', l1), h1 + k')
      /\ collectExports sourceFiles allTypes i2 (h2 + k)
         = (Normal (allTypes', l2), h2 + k')
      /\ Forall2 (shifted h1 h2) l1 l2.
Proof.
  induction sourceFiles as [ | sf rest IH]; intros allTypes i1 i2 k Hsh.
  - exists allTypes, i1, i2, k. repeat split. exact Hsh.
  - destruct (mapM_interfaceRecord_shifted
                (filter fn_exported (getFunctions sf)) h1 h2 k)
      as (p1 & p2 & H1 & H2 & Hp).
    destruct (IH (allTypes
                  ++ map typeRecord (filter alias_exported (getTypeAliases sf)))%list
                (i1 ++ p1)%list (i2 ++ p2)%list
                (k + List.length (filter fn_exported (getFunctions sf))))
      as (T & l1 & l2 & k' & E1 & E2 & Hl).
    { apply Forall2_app; assumption. }
    exists T, l1, l2, k'.
    cbn [collectExports]. unfold bind. rewrite H1, H2.
    rewrite <- !Nat.add_assoc. rewrite E1, E2. repeat split. exact Hl.
Qed.

(** C8.  Both renderers are functions of the contents of the export
    lists: lists with the same contents, and with the same positions
    holding the same objects, give the same text, whatever the identities
    of the records and whatever node a function record keeps.  Two runs of
    [buildTypes] from different allocation states write the same text. *)
Theorem renderers_deterministic (allTypes : list TypeRec)
    (l1 l2 : list IfaceRec) (fs1 fs2 : list FuncRec)
    (sourceFiles : list SourceFile) (h1 h2 : Ref) :
  Forall2 same_iface_content l1 l2 ->
  same_aliasing l1 l2 ->
  Forall2 same_func_content fs1 fs2 ->
  generateTypeDeclarations allTypes l1 = generateTypeDeclarations allTypes l2
  /\ generateJSDocFromExports allTypes fs1 = generateJSDocFromExports allTypes fs2
  /\ fst (buildTypes_outputContent sourceFiles h1)
     = fst (buildTypes_outputContent sourceFiles h2).
Proof.
  intros Hcontent Halias Hfuncs.
  split; [apply generateTypeDeclarations_content; assumption | ].
  split; [apply generateJSDocFromExports_content; assumption | ].
  destruct (collectExports_shifted sourceFiles h1 h2 [] [] [] 0 (Forall2_nil _))
    as (T & r1 & r2 & k' & E1 & E2 & Hsh).
  rewrite !Nat.add_0_r in E1, E2.
  unfold buildTypes_outputContent, bind. rewrite E1, E2. unfold ret. simpl.
  f_equal. apply generateTypeDeclarations_content.
  - exact (shifted_same_content _ _ _ _ Hsh).
  - exact (shifted_same_aliasing _ _ _ _ Hsh).
Qed.

(* ================================================================== *)
(** * Properties of the matcher                                         *)
(* ================================================================== *)

Section MatcherProperties.

Variable R : Type.
Variable ignoreCase : bool.

(** Whatever the matcher returns was returned by the continuation at a
    position that the pattern can reach. *)
Lemma star_m_sound (cs : CharSet) (s : string) :
  forall prev (k : option ascii -> string -> option R) res,
    star_m ignoreCase cs prev s k = Some res ->
    exists prev' s', ReachStar ignoreCase cs prev s prev' s'
                     /\ k prev' s' = Some res.
Proof.
  induction s as [ | c s IH]; intros prev k res H; simpl in H.
  - exists prev, EmptyString. split; [constructor | exact H].
  - destruct (cs_match ignoreCase cs c) eqn:Hc.
    + destruct (star_m ignoreCase cs (Some c) s k) as [res' | ] eqn:Hs.
      * injection H as <-. destruct (IH _ _ _ Hs) as (p' & s' & Hreach & Hk).
        exists p', s'. split; [now constructor | exact Hk].
      * exists prev, (String c s). split; [constructor | exact H].
    + exists prev, (String c s). split; [constructor | exact H].
Qed.

Lemma rmatch_sound (r : Regex) :
  forall prev s cap (k : Cont R) res,
    rmatch ignoreCase r prev s cap k = Some res ->
    exists prev' s' cap', Reach ignoreCase r prev s cap prev' s' cap'
                          /\ k prev' s' cap' = Some res.
Proof.
  induction r as [ | cs | cs | cs | cs | | | r1 IH1 r2 IH2 | r1 IH1 r2 IH2 | r1 IH1];
    intros prev s cap k res H; simpl in H.
  - exists prev, s, cap. split; [constructor | exact H].
  - destruct s as [ | c s]; [discriminate H | ].
    destruct (cs_match ignoreCase cs c) eqn:Hc; [ | discriminate H].
    exists (Some c), s, cap. split; [now constructor | exact H].
  - destruct (star_m_sound _ _ _ _ _ H) as (p' & s' & Hreach & Hk).
    exists p', s', cap. split; [now constructor | exact Hk].
  - destruct s as [ | c s]; [discriminate H | ].
    destruct (cs_match ignoreCase cs c) eqn:Hc; [ | discriminate H].
    destruct (star_m_sound _ _ _ _ _ H) as (p' & s' & Hreach & Hk).
    exists p', s', cap. split; [now constructor | exact Hk].
  - destruct s as [ | c s].
    + exists prev, EmptyString, cap. split; [constructor | exact H].
    + destruct (cs_match ignoreCase cs c) eqn:Hc.
      * destruct (k (Some c) s cap) as [res' | ] eqn:Hk.
        -- injection H as <-. exists (Some c), s, cap.
           split; [now constructor | exact Hk].
        -- exists prev, (String c s), cap. split; [constructor | exact H].
      * exists prev, (String c s), cap. split; [constructor | exact H].
  - destruct prev as [c | ].
    + destruct (is_line_terminator c) eqn:Hc; [ | discriminate H].
      exists (Some c), s, cap. split; [now constructor | exact H].
    + exists None, s, cap. split; [constructor | exact H].
  - destruct s as [ | c s]; [ | discriminate H].
    exists prev, EmptyString, cap. split; [constructor | exact H].
  - destruct (IH1 _ _ _ _ _ H) as (p1 & s1 & c1 & Hreach1 & Hk1).
    destruct (IH2 _ _ _ _ _ Hk1) as (p2 & s2 & c2 & Hreach2 & Hk2).
    exists p2, s2, c2. split; [econstructor; eassumption | exact Hk2].
  - destruct (rmatch ignoreCase r1 prev s cap k) as [res' | ] eqn:H1.
    + injection H as <-. destruct (IH1 _ _ _ _ _ H1) as (p' & s' & c' & Hreach & Hk).
      exists p', s', c'. split; [now apply Reach_alt_left | exact Hk].
    + destruct (IH2 _ _ _ _ _ H) as (p' & s' & c' & Hreach & Hk).
      exists p', s', c'. split; [now apply Reach_alt_right | exact Hk].
  - destruct (IH1 _ _ _ _ _ H) as (p' & s' & c' & Hreach & Hk).
    eexists p', s', _. split; [econstructor; eassumption | exact Hk].
Qed.



(** The matcher fails when the continuation rejects every position of a
    set of positions that is closed under moving on. *)
Lemma star_m_none (P : string -> Prop) (cs : CharSet) :
  (forall c s, P (String c s) -> P s) ->
  forall s prev (k : option ascii -> string -> option R),
    P s -> (forall p s', P s' -> k p s' = None) ->
    star_m ignoreCase cs prev s k = None.
Proof.
  intros Htail s. induction s as [ | c s IH]; intros prev k Hs Hk; simpl.
  - now apply Hk.
  - destruct (cs_match ignoreCase cs c); [ | now apply Hk].
    rewrite (IH (Some c) k (Htail _ _ Hs) Hk). now apply Hk.
Qed.

Lemma rmatch_none (P : string -> Prop) :
  (forall c s, P (String c s) -> P s) ->
  forall r prev s cap (k : Cont R),
    P s -> (forall p s' cap', P s' -> k p s' cap' = None) ->
    rmatch ignoreCase r prev s cap k = None.
Proof.
  intros Htail r.
  induction r as [ | cs | cs | cs | cs | | | r1 IH1 r2 IH2 | r1 IH1 r2 IH2 | r1 IH1];
    intros prev s cap k Hs Hk; simpl.
  - now apply Hk.
  - destruct s as [ | c s]; [reflexivity | ].
    destruct (cs_match ignoreCase cs c); [ | reflexivity].
    apply Hk. exact (Htail _ _ Hs).
  - apply (star_m_none P); auto.
  - destruct s as [ | c s]; [reflexivity | ].
    destruct (cs_match ignoreCase cs c); [ | reflexivity].
    apply (star_m_none P); eauto.
  - destruct s as [ | c s]; [now apply Hk | ].
    destruct (cs_match ignoreCase cs c); [ | now apply Hk].
    rewrite (Hk (Some c) s cap (Htail _ _ Hs)). now apply Hk.
  - destruct prev as [c | ]; [ | now apply Hk].
    destruct (is_line_terminator c); [now apply Hk | reflexivity].
  - destruct s; [now apply Hk | reflexivity].
  - apply IH1; [exact Hs | ]. intros p s' cap' Hs'. now apply IH2.
  - rewrite IH1 by assumption. now apply IH2.
  - apply IH1; [exact Hs | ]. intros p s' cap' Hs'. now apply Hk.
Qed.

End MatcherProperties.

(* ------------------------------------------------------------------ *)
(** ** What a match consumes                                            *)
(* ------------------------------------------------------------------ *)

Lemma occurs_app (c : ascii) (a b : string) :
  occurs c (a ++ b) = occurs c a || occurs c b.
Proof.
  induction a as [ | x a IH]; simpl; [reflexivity | ].
  rewrite IH. apply orb_assoc.
Qed.



Lemma cs_match_not_LF (ic : bool) (cs : CharSet) (c : ascii) :
  cs_rejects_LF ic cs = true -> cs_match ic cs c = true ->
  Ascii.eqb c LF = false.
Proof.
  unfold cs_rejects_LF. intros Hrej Hc.
  destruct (Ascii.eqb_spec c LF) as [-> | ]; [ | reflexivity].
  rewrite Hc in Hrej. discriminate Hrej.
Qed.

Lemma ReachStar_consumed (ic : bool) (cs : CharSet) prev s prev' s' :
  ReachStar ic cs prev s prev' s' ->
  exists u, s = u ++ s'
            /\ (cs_rejects_LF ic cs = true -> occurs LF u = false).
Proof.
  induction 1 as [prev s | prev c s prev' s' Hc _ (u & -> & Hu)].
  - exists EmptyString. split; reflexivity.
  - exists (String c u). split; [reflexivity | ].
    intros Hrej. simpl. rewrite (cs_match_not_LF _ _ _ Hrej Hc). now apply Hu.
Qed.

Lemma Reach_consumed (ic : bool) (r : Regex) prev s cap prev' s' cap' :
  Reach ic r prev s cap prev' s' cap' ->
  exists u, s = u ++ s'
            /\ (consumes_no_LF ic r = true -> occurs LF u = false).
Proof.
  induction 1 as
    [ prev s cap
    | cs prev c s cap Hc
    | cs prev s cap prev' s' Hstar
    | cs prev c s cap prev' s' Hc Hstar
    | cs prev s cap
    | cs prev c s cap Hc
    | s cap
    | c s cap Hc
    | prev cap
    | r1 r2 prev s cap prev1 s1 cap1 prev2 s2 cap2 _ (u1 & -> & H1) _ (u2 & -> & H2)
    | r1 r2 prev s cap prev' s' cap' _ (u & -> & Hu)
    | r1 r2 prev s cap prev' s' cap' _ (u & -> & Hu)
    | r prev s cap prev' s' cap' _ (u & -> & Hu) ];
    simpl;
    try (exists EmptyString; split; reflexivity).
  - exists (String c EmptyString). split; [reflexivity | ].
    intros Hrej. simpl. now rewrite (cs_match_not_LF _ _ _ Hrej Hc).
  - exact (ReachStar_consumed _ _ _ _ _ _ Hstar).
  - destruct (ReachStar_consumed _ _ _ _ _ _ Hstar) as (u & -> & Hu).
    exists (String c u). split; [reflexivity | ].
    intros Hrej. simpl. rewrite (cs_match_not_LF _ _ _ Hrej Hc). now apply Hu.
  - exists (String c EmptyString). split; [reflexivity | ].
    intros Hrej. simpl. now rewrite (cs_match_not_LF _ _ _ Hrej Hc).
  - exists (u1 ++ u2). split; [now rewrite string_app_assoc | ].
    intros Hno. apply andb_true_iff in Hno as [Hn1 Hn2].
    rewrite occurs_app, (H1 Hn1), (H2 Hn2). reflexivity.
  - exists u. split; [reflexivity | ].
    intros Hno. apply andb_true_iff in Hno as [Hn1 _]. now apply Hu.
  - exists u. split; [reflexivity | ].
    intros Hno. apply andb_true_iff in Hno as [_ Hn2]. now apply Hu.
  - exists u. split; [reflexivity | exact Hu].
Qed.


(* ================================================================== *)
(** * Properties of the documentation lookup                            *)
(* ================================================================== *)

Lemma lit_self (ic : bool) (c : ascii) : cs_match ic (Lit c) c = true.
Proof. apply Ascii.eqb_refl. Qed.


Lemma lit_at (c : ascii) :
  cs_match true (Lit "@"%char) c = true -> c = "@"%char.
Proof. ascii_cases c. Qed.

Lemma lit_backslash (c : ascii) :
  cs_match true (Lit backslash) c = true -> c = backslash.
Proof. ascii_cases c. Qed.







Lemma lit_of_LF (c : ascii) : cs_match true (Lit c) LF = true -> c = LF.
Proof. ascii_cases c. Qed.

Lemma same_ignoring_case_refl (s : string) : same_ignoring_case s s = true.
Proof.
  induction s as [ | c s IH]; [reflexivity | ].
  cbn [same_ignoring_case]. now rewrite lit_self, IH.
Qed.







(* ------------------------------------------------------------------ *)
(** ** The tail of the pattern                                          *)
(* ------------------------------------------------------------------ *)



Lemma trimStart_head (s : string) (c : ascii) (d : string) :
  trimStart s = String c d -> is_space c = false.
Proof.
  induction s as [ | x s IH]; simpl; [discriminate | ].
  destruct (is_space x) eqn:Hx; [exact IH | ].
  intros H. injection H as <- _. exact Hx.
Qed.

Lemma trimStart_fixed (c : ascii) (d : string) :
  is_space c = false -> trimStart (String c d) = String c d.
Proof. intros H. simpl. now rewrite H. Qed.

Lemma length_app (a b : string) :
  String.length (a ++ b) = String.length a + String.length b.
Proof.
  induction a as [ | x a IH]; simpl; [reflexivity | now rewrite IH].
Qed.

Lemma substring_prefix (a b : string) :
  substring 0 (String.length (a ++ b) - String.length b) (a ++ b) = a.
Proof.
  rewrite length_app, Nat.add_sub.
  induction a as [ | x a IH]; simpl.
  - destruct b; reflexivity.
  - now rewrite IH.
Qed.



(* ------------------------------------------------------------------ *)
(** ** Parameter descriptions                                           *)
(* ------------------------------------------------------------------ *)





(** No match of [re_param] starts in a text without the at sign. *)
Lemma search_within_no_at (name pre rest : string) prev :
  occurs "@"%char pre = false ->
  search_within true (re_param name) prev pre rest = None.
Proof.
  revert prev. induction pre as [ | c pre IH]; intros prev H; [reflexivity | ].
  cbn [occurs] in H. apply orb_false_iff in H as [Hc Hpre].
  cbn [search_within]. rewrite (IH (Some c) Hpre).
  replace (exec_at true (re_param name) prev (String c pre ++ rest))
    with (@None MatchResult); [reflexivity | ].
  symmetry. unfold exec_at, re_param. cbn [seqs lits rmatch append].
  destruct (cs_match true (Lit "@"%char) c) eqn:Hat; [ | reflexivity].
  apply lit_at in Hat. subst c. discriminate Hc.
Qed.



Lemma is_identifier_occurs (name : string) (x : ascii) :
  is_identifier name = true -> is_identifier_char x = false ->
  occurs x name = false.
Proof.
  intros Hname Hx. induction name as [ | c name IH]; [reflexivity | ].
  cbn [is_identifier] in Hname. apply andb_true_iff in Hname as [Hc Hname].
  cbn [occurs]. rewrite (IH Hname), orb_false_r.
  destruct (Ascii.eqb_spec c x) as [-> | ]; [ | reflexivity].
  rewrite Hc in Hx. discriminate Hx.
Qed.





(* ------------------------------------------------------------------ *)
(** ** Return descriptions                                              *)
(* ------------------------------------------------------------------ *)

Lemma search_none (P : string -> Prop) (ic : bool) (r : Regex) :
  (forall c s, P (String c s) -> P s) ->
  (forall prev s, P s -> exec_at ic r prev s = None) ->
  forall s prev, P s -> search ic r prev s = None.
Proof.
  intros Htail Hexec s. induction s as [ | c s IH]; intros prev Hs; simpl.
  - now rewrite Hexec.
  - rewrite (Hexec prev _ Hs). apply IH. exact (Htail _ _ Hs).
Qed.

(** [re_returns] asks for a backslash after the hyphen: it matches nowhere
    in a text that has none. *)
Lemma re_returns_needs_backslash (comment : string) :
  occurs backslash comment = false ->
  str_match comment true re_returns = None.
Proof.
  intros Hc. unfold str_match.
  apply (search_none (fun s => occurs backslash s = false)); [ | | exact Hc].
  - intros c s H. cbn [occurs] in H. now apply orb_false_iff in H as [_ H].
  - intros prev s Hs. unfold exec_at, re_returns. cbn [seqs].
    change (rmatch true
              (RSeq (lits "@return")
                 (RSeq (ROpt (Lit "s"%char))
                    (RSeq (RStar (NoneOf [backslash; "n"%char]))
                       (RSet (Lit "-"%char)))))
              prev s None
              (fun p s' cap' =>
                 rmatch true
                   (RSeq (RSet (Lit backslash))
                      (RSeq (RStar (Lit "s"%char))
                         (RGroup (RPlus (NoneOf [backslash; "n"%char])))))
                   p s' cap'
                   (fun _ s'' cap =>
                      Some (mkMatch (String.length s - String.length s'') cap)))
            = None).
    apply (rmatch_none _ true (fun s => occurs backslash s = false)).
    + intros c s0 H. cbn [occurs] in H. now apply orb_false_iff in H as [_ H].
    + exact Hs.
    + intros p s' cap' Hs'. cbn [rmatch].
      destruct s' as [ | c s']; [reflexivity | ].
      destruct (cs_match true (Lit backslash) c) eqn:Hb; [ | reflexivity].
      apply lit_backslash in Hb. subst c.
      cbn [occurs] in Hs'. rewrite Ascii.eqb_refl in Hs'. discriminate Hs'.
Qed.

(** The return description of a documented function never comes from a
    documentation comment without a backslash. *)
Lemma getReturnDescription_without_backslash (comment : string)
    (functionName : option string) :
  truthy comment = true ->
  occurs backslash comment = false ->
  getReturnDescription (Some comment) functionName
  = if name_is functionName "toDate"
    then "The converted Date or null if the value is invalid"
    else if name_is functionName "isDate"
         then "True if the value is a valid Date object"
         else "The converted Date".
Proof.
  intros Ht Hc. unfold getReturnDescription, present.
  rewrite Ht, (re_returns_needs_backslash _ Hc). reflexivity.
Qed.

(** The tags of the sources of the library, and a return tag with a
    hyphen: the parameter descriptions come from the comment, the return
    descriptions from the table. *)
Lemma descriptions_of_tagged_comments :
  getParamDescription (Some doc_toDate) "value" = "The value to convert to Date"
  /\ getReturnDescription (Some doc_toDate) (Some "toDate")
     = "The converted Date or null if the value is invalid"
  /\ getParamDescription (Some doc_returns_hyphen) "value"
     = "The date to start from"
  /\ getReturnDescription (Some doc_returns_hyphen) (Some "nextDay")
     = "The converted Date".
Proof. repeat split. Qed.

(* ================================================================== *)
(** * The renderers on the sources of the library                       *)
(* ================================================================== *)

(** The declaration block of [app/code.ts] is the text of
    [dist.example/types/types.d.ts], followed by a line feed. *)
Example declaration_block_of_code_ts :
  fst (buildTypes_outputContent [code_ts] 0)
  = Normal
      ("declare namespace Lib {
  namespace Utils {
    /**
     * Valid date value types that can be converted to Date
     */
    type DateValue = Date | number | string | null | undefined

    interface Utils {
      /**
       * Returns a Date from the specified argument.
       * @param value - The value to convert to Date
       * @param defaultValue - Default Date to return if conversion fails
       * @returns Date object or defaultValue if conversion fails
       */
      toDate(value: DateValue, defaultValue?: Date): Date | undefined

      /**
       * Returns a Date from the specified argument, throwing if conversion fails.
       * @param value - The value to convert to Date
       * @param defaultValue - Default Date to return if conversion fails
       * @returns Date object
       * @throws TypeError if value cannot be converted to Date and no default provided
       */
      toDateStrict(value: DateValue, defaultValue?: Date): Date
    }
  }
}

declare var Utils: Lib.Utils.Utils" ++ String LF EmptyString).
Proof. vm_compute. reflexivity. Qed.

(** The documentation comments of the earlier sources are the text of
    [docs/gas-types.js]. *)
Example jsdoc_of_sources :
  buildJSDoc_outputContent [code_ts_0; type_check_ts]
  = "/**
 * @namespace Utils
 */

/**
 * Valid date value types that can be converted to Date
 * @typedef {Date | number | string | null | undefined} Utils.DateValue
 */

/**
 * Returns a Date from the specified argument.
 * @function Utils.toDate
 * @param {Utils.DateValue} value - The value to convert to Date
 * @param {Date} [defaultValue=null] - Default Date to return if conversion fails
 * @returns {Date | null} The converted Date or null if the value is invalid
 */

/**
 * Returns a Date from the specified argument, throwing if conversion fails.
 * @function Utils.toDateStrict
 * @param {Utils.DateValue} value - The value to convert to Date
 * @param {Date} [defaultValue=null] - Default Date to return if conversion fails
 * @returns {Date} The converted Date
 */

/**
 * Returns true if the value is a valid Date object
 * @function Utils.isDate
 * @param {unknown} value - The value to convert to Date
 * @returns {boolean} True if the value is a valid Date object
 */

/**
 * @typedef {Object} Utils
 * @property {function} toDate
 * @property {function} toDateStrict
 * @property {function} isDate
 */

/**
 * @type {Utils}
 */
var Utils = Utils || {}
".
Proof. vm_compute. reflexivity. Qed.

(** Two lists of records with the same contents and other identities. *)
Lemma renderers_deterministic_witness :
  let l1 := [mkIfaceRec 0 (Some "toDate")
               "toDate(value: DateValue, defaultValue?: Date): Date | undefined"
               (Some doc_toDate);
             mkIfaceRec 1 (Some "isDate") "isDate(value: unknown): boolean"
               (Some doc_isDate)] in
  let l2 := [mkIfaceRec 7 (Some "toDate")
               "toDate(value: DateValue, defaultValue?: Date): Date | undefined"
               (Some doc_toDate);
             mkIfaceRec 3 (Some "isDate") "isDate(value: unknown): boolean"
               (Some doc_isDate)] in
  let fs1 := [functionRecord node_isDate] in
  let fs2 := [mkFuncRec (Some "isDate") [mkParam "value" (Some "unknown") false]
                "boolean" (Some doc_isDate) node_toDate] in
  generateTypeDeclarations [typeRecord node_DateValue] l1
  = generateTypeDeclarations [typeRecord node_DateValue] l2
  /\ generateJSDocFromExports [typeRecord node_DateValue] fs1
     = generateJSDocFromExports [typeRecord node_DateValue] fs2.
Proof.
  intros l1 l2 fs1 fs2.
  assert (Hcontent : Forall2 same_iface_content l1 l2).
  { repeat constructor. }
  assert (Halias : same_aliasing l1 l2).
  { intros i j a b a' b' Ha Hb Ha' Hb'.
    destruct i as [ | [ | [ | i]]]; try discriminate Ha;
      destruct j as [ | [ | [ | j]]]; try discriminate Hb;
      injection Ha as <-; injection Hb as <-;
      injection Ha' as <-; injection Hb' as <-; simpl;
      split; intros H; (reflexivity || discriminate H). }
  assert (Hfuncs : Forall2 same_func_content fs1 fs2).
  { repeat constructor. }
  destruct (renderers_deterministic [typeRecord node_DateValue] l1 l2 fs1 fs2
              [code_ts; type_check_ts] 0 5 Hcontent Halias Hfuncs)
    as (H1 & H2 & _).
  split; assumption.
Defined.

(* ================================================================== *)
(** * Further properties of the date helpers                            *)
(* ================================================================== *)

(** X1.  Converting twice is converting once: when the default is a Date,
    null or undefined, [toDate] applied to its own result returns that
    result again and creates no object. *)
Theorem toDate_idempotent (Date_parse : string -> TimeValue)
    (v def r : JsValue) (h h' : Ref) :
  def = JUndefined \/ def = JNull \/ (exists d, def = JDate d) ->
  toDate Date_parse v def h = (Normal r, h') ->
  toDate Date_parse r def h' = (Normal r, h').
Proof.
  intros Hdef Hr.
  destruct (toDate_result Date_parse v def h (toDate_normal _ _ _ _ _ _ Hr))
    as (r0 & h0 & Hr0 & Hcase).
  rewrite Hr in Hr0. injection Hr0 as <- <-.
  destruct Hcase as [-> | (d & t & -> & Ht)].
  - destruct Hdef as [-> | [-> | (d & ->)]]; try reflexivity.
    rewrite toDate_date. destruct (Number_isNaN (date_value d)); reflexivity.
  - rewrite toDate_date, Ht. reflexivity.
Qed.

(** X1 on the host of the examples. *)
Lemma toDate_idempotent_witness :
  toDate Date_parse_iso
    (JDate (mkDate 0 (Some 1672531200000%Z))) JUndefined 1
  = (Normal (JDate (mkDate 0 (Some 1672531200000%Z))), 1).
Proof.
  apply (toDate_idempotent Date_parse_iso (JString "2023-01-01") JUndefined
           (JDate (mkDate 0 (Some 1672531200000%Z))) 0 1).
  - left. reflexivity.
  - reflexivity.
Defined.

(** X2.  Without a default, or with a default that is a valid Date,
    whatever [toDateStrict] returns is a valid Date: [isDate] holds on
    it. *)
Theorem toDateStrict_returns_valid (Date_parse : string -> TimeValue)
    (v def r : JsValue) (h h' : Ref) :
  def = JUndefined \/ (exists d t, def = JDate d /\ date_value d = Some t) ->
  toDateStrict Date_parse v def h = (Normal r, h') ->
  isDate r h' = (Normal true, h').
Proof.
  intros Hdef Hr.
  assert (Hv : date_like v = false).
  { destruct (date_like v) eqn:Hv; [ | reflexivity].
    destruct (date_like_inv v Hv) as (o & ->).
    rewrite (toDateStrict_throw _ _ _ _ _ _ (toDate_date_like _ o def h)) in Hr.
    discriminate Hr. }
  destruct (toDate_result Date_parse v def h Hv) as (r0 & h0 & Hr0 & Hcase).
  unfold toDateStrict, bind in Hr. rewrite Hr0 in Hr.
  destruct Hcase as [-> | (d & t & -> & Ht)].
  - destruct Hdef as [-> | (d & t & -> & Ht)].
    + discriminate Hr.
    + injection Hr as <- <-. unfold isDate, bind, ret. simpl. now rewrite Ht.
  - injection Hr as <- <-. unfold isDate, bind, ret. simpl. now rewrite Ht.
Qed.

(** X2 on the host of the examples. *)
Lemma toDateStrict_returns_valid_witness :
  isDate (JDate (mkDate 1 (Some 1672531200000%Z))) 2 = (Normal true, 2).
Proof.
  apply (toDateStrict_returns_valid Date_parse_iso (JString "2023-01-01")
           JUndefined (JDate (mkDate 1 (Some 1672531200000%Z))) 1 2).
  - left. reflexivity.
  - reflexivity.
Defined.

(* ================================================================== *)
(** * Further properties of the documentation comments                  *)
(* ================================================================== *)

Lemma trimEnd_head (c : ascii) (s : string) :
  is_space c = false -> exists t, trimEnd (String c s) = String c t.
Proof.
  intros Hc. simpl. destruct (trimEnd s) as [ | d t].
  - rewrite Hc. now exists EmptyString.
  - now exists (String d t).
Qed.

Lemma trimEnd_idempotent (s : string) : trimEnd (trimEnd s) = trimEnd s.
Proof.
  assert (Hstep : forall c s,
             trimEnd (String c s)
             = match trimEnd s with
               | EmptyString =>
                   if is_space c then EmptyString else String c EmptyString
               | String d t => String c (String d t)
               end) by reflexivity.
  induction s as [ | c s IH]; [reflexivity | ].
  rewrite (Hstep c s). destruct (trimEnd s) as [ | d t] eqn:Ht.
  - destruct (is_space c) eqn:Hc; [reflexivity | ].
    rewrite Hstep. cbn [trimEnd]. now rewrite Hc.
  - rewrite Hstep, IH. reflexivity.
Qed.

(** A trimmed text is empty or starts with a character that is not white
    space. *)
Lemma trim_head (s : string) (c : ascii) (t : string) :
  trim s = String c t -> is_space c = false.
Proof.
  unfold trim. destruct (trimStart s) as [ | c0 z] eqn:Hs; [discriminate | ].
  pose proof (trimStart_head _ _ _ Hs) as Hc0.
  destruct (trimEnd_head c0 z Hc0) as (t' & ->).
  intros H. injection H as <- _. exact Hc0.
Qed.

Lemma trim_idempotent (s : string) : trim (trim s) = trim s.
Proof.
  destruct (trim s) as [ | c t] eqn:Hs; [reflexivity | ].
  pose proof (trim_head _ _ _ Hs) as Hc.
  unfold trim in *. rewrite (trimStart_fixed c t Hc), <- Hs.
  apply trimEnd_idempotent.
Qed.

Lemma trimStart_occurs (x : ascii) (s : string) :
  occurs x s = false -> occurs x (trimStart s) = false.
Proof.
  induction s as [ | c s IH]; [reflexivity | ].
  intros H. simpl. destruct (is_space c); [ | exact H].
  cbn [occurs] in H. apply orb_false_iff in H as [_ H]. now apply IH.
Qed.

Lemma trimEnd_occurs (x : ascii) (s : string) :
  occurs x s = false -> occurs x (trimEnd s) = false.
Proof.
  induction s as [ | c s IH]; [reflexivity | ].
  intros H. cbn [occurs] in H. apply orb_false_iff in H as [Hc Hs].
  simpl. destruct (trimEnd s) as [ | d t] eqn:Ht.
  - destruct (is_space c); [reflexivity | ]. cbn [occurs]. now rewrite Hc.
  - cbn [occurs]. rewrite Hc. exact (IH Hs).
Qed.

Lemma trim_occurs (x : ascii) (s : string) :
  occurs x s = false -> occurs x (trim s) = false.
Proof.
  intros H. unfold trim. now apply trimEnd_occurs, trimStart_occurs.
Qed.

(** The pieces of a split text do not hold the separator. *)
Lemma split_pieces (sep : ascii) (s : string) :
  Forall (fun piece => occurs sep piece = false) (split sep s).
Proof.
  induction s as [ | c s IH]; simpl.
  - repeat constructor.
  - destruct (Ascii.eqb c sep) eqn:Hc.
    + constructor; [reflexivity | exact IH].
    + destruct (split sep s) as [ | h t].
      * repeat constructor. cbn [occurs]. now rewrite Hc.
      * inversion IH as [ | ? ? Hh Ht]; subst.
        constructor; [ | exact Ht]. cbn [occurs]. now rewrite Hc, Hh.
Qed.

Lemma join_occurs (x : ascii) (sep : string) (l : list string) :
  occurs x sep = false ->
  Forall (fun piece => occurs x piece = false) l ->
  occurs x (join sep l) = false.
Proof.
  intros Hsep. induction 1 as [ | a l Ha _ IH]; [reflexivity | ].
  destruct l as [ | b l]; [exact Ha | ].
  rewrite join_cons_cons, !occurs_app, Ha, Hsep. exact IH.
Qed.

(** The lines that [extractCleanComment] keeps. *)
Lemma kept_lines (comment : string) :
  Forall (fun line => occurs LF line = false
                      /\ (exists c t, line = String c t
                                      /\ is_space c = false
                                      /\ Ascii.eqb c "@"%char = false))
    (filter (fun line => truthy line && negb (startsWith line "@"))
       (trimmedLines comment)).
Proof.
  unfold trimmedLines.
  set (text := replace_all (replace_all comment false re_delimiters) false
                 re_leading_star).
  pose proof (split_pieces LF text) as Hpieces.
  induction Hpieces as [ | piece l Hpiece _ IH]; [constructor | ].
  cbn [map filter].
  destruct (truthy (trim piece) && negb (startsWith (trim piece) "@")) eqn:Hkeep;
    [ | exact IH].
  constructor; [ | exact IH].
  split; [now apply trim_occurs | ].
  apply andb_true_iff in Hkeep as [Hne Hat].
  destruct (trim piece) as [ | c t] eqn:Ht; [discriminate Hne | ].
  exists c, t. split; [reflexivity | ].
  split; [exact (trim_head _ _ _ Ht) | ].
  unfold startsWith in Hat. cbn [String.prefix] in Hat.
  destruct (Ascii.ascii_dec "@"%char c) as [<- | Hne'].
  - destruct t; discriminate Hat.
  - destruct (Ascii.eqb_spec c "@"%char) as [-> | ]; [contradiction | reflexivity].
Qed.

(** The cleaned description does not start with an at sign. *)
Lemma clean_comment_not_tag (jsdocComment : option string) :
  startsWith (extractCleanComment jsdocComment) "@" = false.
Proof.
  destruct jsdocComment as [comment | ]; [ | reflexivity].
  unfold extractCleanComment. destruct (truthy comment); [ | reflexivity].
  cbn [negb].
  pose proof (kept_lines comment) as Hkept.
  destruct (filter (fun line => truthy line && negb (startsWith line "@"))
              (trimmedLines comment)) as [ | line rest]; [reflexivity | ].
  inversion Hkept as [ | ? ? (_ & c & t & -> & Hc & Hat) _]; subst.
  assert (Hjoin : exists u, join " " (String c t :: rest) = String c u).
  { destruct rest as [ | b rest]; [now exists t | ].
    rewrite join_cons_cons. now exists (t ++ " " ++ join " " (b :: rest)). }
  destruct Hjoin as (u & ->).
  unfold trim. rewrite (trimStart_fixed c u Hc).
  destruct (trimEnd_head c u Hc) as (u' & ->).
  unfold startsWith. cbn [String.prefix].
  destruct (Ascii.ascii_dec "@"%char c) as [<- | ]; [discriminate Hat | reflexivity].
Qed.

(** X3.  The cleaned description of a documentation comment is one line,
    has no white space at either end, and does not start with an at sign:
    it cannot be taken for a tag, and the test [cleanComment.trim()] of the
    renderers is a test of [cleanComment] itself. *)
Theorem extractCleanComment_shape (jsdocComment : option string) :
  occurs LF (extractCleanComment jsdocComment) = false
  /\ trim (extractCleanComment jsdocComment) = extractCleanComment jsdocComment
  /\ startsWith (extractCleanComment jsdocComment) "@" = false.
Proof.
  split; [ | split; [ | apply clean_comment_not_tag]].
  - destruct jsdocComment as [comment | ]; [ | reflexivity].
    unfold extractCleanComment. destruct (truthy comment); [ | reflexivity].
    cbn [negb]. apply trim_occurs, join_occurs; [reflexivity | ].
    eapply Forall_impl; [ | exact (kept_lines comment)].
    now intros line [H _].
  - destruct jsdocComment as [comment | ]; [ | reflexivity].
    unfold extractCleanComment. destruct (truthy comment); [ | reflexivity].
    cbn [negb]. apply trim_idempotent.
Qed.

(* ================================================================== *)
(** * Further properties of the renderers                               *)
(* ================================================================== *)

Lemma filter_flat_map {A B} (p : B -> bool) (f : A -> list B) (l : list A) :
  filter p (flat_map f l) = flat_map (fun x => filter p (f x)) l.
Proof.
  induction l as [ | a l IH]; [reflexivity | ].
  cbn [flat_map]. now rewrite filter_app, IH.
Qed.

Lemma flat_map_singleton {A B} (f : A -> B) (l : list A) :
  flat_map (fun x => [f x]) l = map f l.
Proof.
  induction l as [ | a l IH]; [reflexivity | ]. cbn [flat_map map app]. now rewrite IH.
Qed.

Lemma flat_map_empty {A B} (l : list A) :
  flat_map (fun _ : A => @nil B) l = [].
Proof.
  induction l as [ | a l IH]; [reflexivity | exact IH].
Qed.

Lemma prefix_app (p x : string) : String.prefix p (p ++ x) = true.
Proof.
  induction p as [ | c p IH]; simpl; [now destruct x | ].
  destruct (Ascii.ascii_dec c c); [exact IH | contradiction].
Qed.

Lemma filter_map_none {A B} (p : B -> bool) (f : A -> B) (l : list A) :
  (forall a, p (f a) = false) -> filter p (map f l) = [].
Proof.
  intros H. induction l as [ | a l IH]; [reflexivity | ].
  cbn [map filter]. now rewrite H, IH.
Qed.

Lemma typeMember_type_line (type : TypeRec) :
  filter (fun line => startsWith line "    type ") (typeMember type)
  = ["    type " ++ type_name type ++ " = " ++ type_definition type].
Proof.
  unfold typeMember.
  rewrite filter_app.
  replace (filter (fun line => startsWith line "    type ")
             (if truthy_opt (type_comment type)
              then
                if truthy (trim (extractCleanComment (type_comment type)))
                then ["    /**";
                      "     * " ++ extractCleanComment (type_comment type);
                      "     */"]
                else []
              else []))
    with (@nil string).
  2:{ destruct (truthy_opt (type_comment type)); [ | reflexivity].
      destruct (truthy (trim (extractCleanComment (type_comment type))));
        reflexivity. }
  cbn [filter app]. unfold startsWith at 1.
  rewrite (prefix_app "    type "). reflexivity.
Qed.

Lemma interfaceMember_no_type_line (interfaces : list IfaceRec) (func : IfaceRec) :
  filter (fun line => startsWith line "    type ")
    (interfaceMember interfaces func) = [].
Proof.
  unfold interfaceMember. rewrite !filter_app.
  replace (filter (fun line => startsWith line "    type ")
             ["      " ++ iface_signature func]) with (@nil string)
    by reflexivity.
  replace (filter (fun line => startsWith line "    type ")
             (if (indexOf interfaces func
                  <? Z.of_nat (List.length interfaces) - 1)%Z
              then [""] else [])) with (@nil string)
    by (destruct (indexOf interfaces func
                  <? Z.of_nat (List.length interfaces) - 1)%Z; reflexivity).
  rewrite !app_nil_r.
  destruct (iface_comment func) as [comment | ]; [ | reflexivity].
  destruct (truthy comment); [ | reflexivity].
  rewrite !filter_app.
  rewrite (filter_map_none _ (fun line => "       * " ++ line)) by reflexivity.
  destruct (truthy (trim (extractCleanComment (Some comment)))); reflexivity.
Qed.

(** Among the elements that the renderer joins, those that begin a type
    member are the members of the type records. *)
Lemma declarationLines_type_members (types : list TypeRec)
    (interfaces : list IfaceRec) :
  filter (fun line => startsWith line "    type ")
    (declarationLines types interfaces)
  = map (fun type => "    type " ++ type_name type ++ " = " ++ type_definition type)
      types.
Proof.
  unfold declarationLines. rewrite !filter_app, !filter_flat_map.
  erewrite (flat_map_ext
              (fun x => filter (fun line => startsWith line "    type ")
                          (typeMember x))).
  2:{ intros type. apply typeMember_type_line. }
  erewrite (flat_map_ext
              (fun x => filter (fun line => startsWith line "    type ")
                          (interfaceMember interfaces x))).
  2:{ intros func. apply interfaceMember_no_type_line. }
  rewrite flat_map_singleton, flat_map_empty.
  cbn [filter app]. now rewrite app_nil_r.
Qed.

Lemma not_at_prefix (clean rest : string) :
  startsWith clean "@" = false ->
  String.prefix (String "@"%char rest) clean = false.
Proof.
  unfold startsWith. destruct clean as [ | c t]; [reflexivity | ].
  cbn [String.prefix].
  destruct (Ascii.ascii_dec "@"%char c); [ | reflexivity].
  destruct t; discriminate.
Qed.

Lemma clean_line_no_function_tag (jsdocComment : option string) :
  startsWith (" * " ++ extractCleanComment jsdocComment) " * @function Utils."
  = false.
Proof.
  unfold startsWith. cbn [append String.prefix].
  repeat (match goal with
          | |- context [Ascii.ascii_dec ?a ?b] =>
              destruct (Ascii.ascii_dec a b); [ | discriminate || reflexivity]
          end).
  apply not_at_prefix, clean_comment_not_tag.
Qed.

Lemma typedefBlock_no_function_tag (type : TypeRec) :
  filter (fun line => startsWith line " * @function Utils.") (typedefBlock type)
  = [].
Proof.
  unfold typedefBlock. rewrite !filter_app.
  replace (filter (fun line => startsWith line " * @function Utils.")
             (if truthy_opt (type_comment type)
              then [" * " ++ extractCleanComment (type_comment type)]
              else [])) with (@nil string).
  2:{ destruct (truthy_opt (type_comment type)); [ | reflexivity].
      cbn [filter]. now rewrite clean_line_no_function_tag. }
  reflexivity.
Qed.

Lemma functionBlock_function_tag (func : FuncRec) :
  filter (fun line => startsWith line " * @function Utils.") (functionBlock func)
  = [" * @function Utils." ++ template_of (func_name func)].
Proof.
  unfold functionBlock. rewrite !filter_app.
  replace (filter (fun line => startsWith line " * @function Utils.")
             (if truthy_opt (func_comment func)
              then
                if truthy (trim (extractCleanComment (func_comment func)))
                then [" * " ++ extractCleanComment (func_comment func)]
                else []
              else [])) with (@nil string).
  2:{ destruct (truthy_opt (func_comment func)); [ | reflexivity].
      destruct (truthy (trim (extractCleanComment (func_comment func))));
        [ | reflexivity].
      cbn [filter]. now rewrite clean_line_no_function_tag. }
  rewrite (filter_map_none _ (paramLine (func_comment func))) by reflexivity.
  replace (filter (fun line => startsWith line " * @function Utils.")
             (if name_is (func_name func) "toDateStrict"
                 && match func_comment func with
                    | Some c => includes c "@throws"
                    | None => false
                    end
              then [" * @throws {Error} If the value cannot be converted to a valid Date"]
              else [])) with (@nil string).
  2:{ destruct (name_is (func_name func) "toDateStrict"
                && match func_comment func with
                   | Some c => includes c "@throws"
                   | None => false
                   end); reflexivity. }
  cbn [filter app]. unfold startsWith.
  rewrite (prefix_app " * @function Utils."). reflexivity.
Qed.

(** Among the elements that the renderer joins, those that begin a
    function tag are the tags of the function records. *)
Lemma jsdocLines_function_tags (allTypes : list TypeRec)
    (allFunctions : list FuncRec) :
  filter (fun line => startsWith line " * @function Utils.")
    (jsdocLines allTypes allFunctions)
  = map (fun func => " * @function Utils." ++ template_of (func_name func))
      allFunctions.
Proof.
  unfold jsdocLines. rewrite !filter_app, !filter_flat_map.
  erewrite (flat_map_ext
              (fun x => filter (fun line => startsWith line " * @function Utils.")
                          (typedefBlock x))).
  2:{ intros type. apply typedefBlock_no_function_tag. }
  erewrite (flat_map_ext
              (fun x => filter (fun line => startsWith line " * @function Utils.")
                          (functionBlock x))).
  2:{ intros func. apply functionBlock_function_tag. }
  rewrite flat_map_singleton, flat_map_empty.
  replace (filter (fun line => startsWith line " * @function Utils.")
             (if (0 <? List.length (map func_name allFunctions))%nat
              then
                (["/**"; " * @typedef {Object} Utils"]
                 ++ map (fun funcName =>
                           (" * @property {function} " ++ template_of funcName)%string)
                      (map func_name allFunctions)
                 ++ [" */"; ""])%list
              else [])) with (@nil string).
  2:{ destruct (0 <? List.length (map func_name allFunctions))%nat;
        [ | reflexivity].
      rewrite !filter_app.
      rewrite (filter_map_none _
                 (fun funcName => " * @property {function} " ++ template_of funcName))
        by reflexivity.
      reflexivity. }
  cbn [filter app]. now rewrite app_nil_r.
Qed.

(* ------------------------------------------------------------------ *)
(** ** Source files without exports                                     *)
(* ------------------------------------------------------------------ *)

Lemma exports_nothing_filters (sf : SourceFile) :
  exports_nothing sf = true ->
  filter alias_exported (getTypeAliases sf) = []
  /\ filter fn_exported (getFunctions sf) = [].
Proof.
  induction sf as [ | [a | f | text] sf IH]; intros H;
    [split; reflexivity | | | ];
    cbn [exports_nothing forallb] in H; apply andb_true_iff in H as [Hst Hsf];
    destruct (IH Hsf) as [IHt IHf]; cbn [getTypeAliases getFunctions filter].
  - apply negb_true_iff in Hst. rewrite Hst. now split.
  - apply negb_true_iff in Hst. rewrite Hst. now split.
  - now split.
Qed.

Lemma collectExports_nothing (sourceFiles : list SourceFile) :
  forallb exports_nothing sourceFiles = true ->
  forall allTypes allInterfaces h,
    collectExports sourceFiles allTypes allInterfaces h
    = (Normal (allTypes, allInterfaces), h).
Proof.
  induction sourceFiles as [ | sf rest IH]; intros H allTypes allInterfaces h;
    [reflexivity | ].
  cbn [forallb] in H. apply andb_true_iff in H as [Hsf Hrest].
  destruct (exports_nothing_filters sf Hsf) as [Ht Hf].
  cbn [collectExports]. rewrite Ht, Hf. cbn [mapM map]. unfold bind, ret.
  rewrite !app_nil_r. now apply IH.
Qed.

Lemma collectJSDocExports_nothing (sourceFiles : list SourceFile) :
  forallb exports_nothing sourceFiles = true ->
  forall allTypes allFunctions,
    collectJSDocExports sourceFiles allTypes allFunctions
    = {| types := allTypes; functions := allFunctions |}.
Proof.
  induction sourceFiles as [ | sf rest IH]; intros H allTypes allFunctions;
    [reflexivity | ].
  cbn [forallb] in H. apply andb_true_iff in H as [Hsf Hrest].
  destruct (exports_nothing_filters sf Hsf) as [Ht Hf].
  cbn [collectJSDocExports]. unfold extractExportsFromFile.
  rewrite Ht, Hf. cbn [map types functions]. rewrite !app_nil_r. now apply IH.
Qed.

(** X6.  When no source file has an exported declaration (in particular
    when there is no source file), both builds still write a text: the
    declaration block with an empty interface, and documentation comments
    that give [Utils] the type [Utils] without a typedef of that name.
    No object is created. *)
Theorem builds_without_exports (sourceFiles : list SourceFile) (h : Ref) :
  forallb exports_nothing sourceFiles = true ->
  buildTypes_outputContent sourceFiles h
  = (Normal "declare namespace Lib {
  namespace Utils {
    interface Utils {
    }
  }
}

declare var Utils: Lib.Utils.Utils
", h)
  /\ buildJSDoc_outputContent sourceFiles
     = "/**
 * @namespace Utils
 */

/**
 * @type {Utils}
 */
var Utils = Utils || {}
".
Proof.
  intros H. split.
  - unfold buildTypes_outputContent, bind.
    rewrite (collectExports_nothing _ H). reflexivity.
  - unfold buildJSDoc_outputContent.
    rewrite (collectJSDocExports_nothing _ H). reflexivity.
Qed.

(** X6 on a file that declares without exporting. *)
Lemma builds_without_exports_witness :
  buildJSDoc_outputContent
    [[StOther "const x = 1";
      StFunction (mkFunction false (Some "helper") [] None [])]]
  = "/**
 * @namespace Utils
 */

/**
 * @type {Utils}
 */
var Utils = Utils || {}
".
Proof.
  apply (builds_without_exports
           [[StOther "const x = 1";
             StFunction (mkFunction false (Some "helper") [] None [])]] 0).
  reflexivity.
Defined.

(* ------------------------------------------------------------------ *)
(** ** The records of the interface and the lines between them          *)
(* ------------------------------------------------------------------ *)

Lemma collectExports_refs (sourceFiles : list SourceFile) :
  forall allTypes allInterfaces h,
  exists allTypes' pushed,
    collectExports sourceFiles allTypes allInterfaces h
    = (Normal (allTypes', allInterfaces ++ pushed)%list, h + List.length pushed)
    /\ map iface_ref pushed = seq h (List.length pushed).
Proof.
  induction sourceFiles as [ | sf rest IH]; intros allTypes allInterfaces h.
  - exists allTypes, []. cbn [collectExports]. unfold ret.
    rewrite app_nil_r, Nat.add_0_r. split; reflexivity.
  - destruct (mapM_interfaceRecord (filter fn_exported (getFunctions sf)) h)
      as (l & Hl & Hrefs & _).
    set (n := List.length (filter fn_exported (getFunctions sf))) in *.
    assert (Hlen : List.length l = n).
    { rewrite <- (length_map iface_ref l), Hrefs. apply length_seq. }
    destruct (IH (allTypes
                  ++ map typeRecord (filter alias_exported (getTypeAliases sf)))%list
                (allInterfaces ++ l)%list (h + n))
      as (T & pushed & Hrest & Hrefs').
    exists T, (l ++ pushed)%list.
    cbn [collectExports]. unfold bind. rewrite Hl, Hrest.
    rewrite <- app_assoc, List.length_app, Hlen, Nat.add_assoc.
    split; [reflexivity | ].
    rewrite map_app, Hrefs, Hrefs', seq_app. reflexivity.
Qed.

(** X7.  The loop of [buildTypes] creates one object for each exported
    function and nothing else: the interface records that it collects are
    pairwise distinct objects. *)
Theorem buildTypes_records_distinct (sourceFiles : list SourceFile) (h : Ref) :
  exists allTypes allInterfaces,
    collectExports sourceFiles [] [] h
    = (Normal (allTypes, allInterfaces), h + List.length allInterfaces)
    /\ NoDup (map iface_ref allInterfaces)
    /\ List.length allInterfaces
       = List.length
           (flat_map (fun sf => filter fn_exported (getFunctions sf)) sourceFiles).
Proof.
  destruct (collectExports_refs sourceFiles [] [] h) as (T & pushed & Hc & Hrefs).
  exists T, pushed. cbn [app] in Hc.
  split; [exact Hc | ]. split; [rewrite Hrefs; apply seq_NoDup | ].
  clear Hrefs. revert h T pushed Hc.
  assert (Hgen : forall sfs allTypes allInterfaces h T I h',
             collectExports sfs allTypes allInterfaces h = (Normal (T, I), h') ->
             List.length I
             = List.length allInterfaces
               + List.length
                   (flat_map (fun sf => filter fn_exported (getFunctions sf)) sfs)).
  { induction sfs as [ | sf rest IH]; intros allTypes allInterfaces h0 T0 I h' Hc.
    - cbn [collectExports] in Hc. unfold ret in Hc. injection Hc as _ <- _.
      cbn [flat_map List.length]. now rewrite Nat.add_0_r.
    - cbn [collectExports] in Hc. unfold bind in Hc.
      destruct (mapM_interfaceRecord (filter fn_exported (getFunctions sf)) h0)
        as (l & Hl & Hrefs & _).
      rewrite Hl in Hc. rewrite (IH _ _ _ _ _ _ Hc).
      cbn [flat_map]. rewrite !List.length_app.
      rewrite <- (length_map iface_ref l), Hrefs, length_seq. lia. }
  intros h T pushed Hc. exact (Hgen _ _ _ _ _ _ _ Hc).
Qed.

Lemma indexOf_from_position (l1 l2 : list IfaceRec) (x : IfaceRec) (k : Z) :
  ~ In (iface_ref x) (map iface_ref l1) ->
  indexOf_from (l1 ++ x :: l2) x k = (k + Z.of_nat (List.length l1))%Z.
Proof.
  revert k. induction l1 as [ | a l1 IH]; intros k Hnot.
  - cbn [app indexOf_from List.length]. rewrite Nat.eqb_refl. cbn. lia.
  - cbn [app indexOf_from].
    destruct (Nat.eqb_spec (iface_ref a) (iface_ref x)) as [E | _].
    + exfalso. apply Hnot. left. exact E.
    + rewrite IH by (intros Hin; apply Hnot; right; exact Hin).
      cbn [List.length]. lia.
Qed.

(** X8.  Among distinct records, as [buildTypes] collects them, an empty
    line follows every member of the interface but the last: the lines of
    a member are those it has when it is alone, and one empty line when
    another member comes after it. *)
Theorem interface_members_separated (l1 l2 : list IfaceRec) (func : IfaceRec) :
  NoDup (map iface_ref (l1 ++ func :: l2)) ->
  interfaceMember (l1 ++ func :: l2) func
  = (interfaceMember [func] func
     ++ match l2 with
        | [] => []
        | _ :: _ => [""]
        end)%list.
Proof.
  intros Hnodup.
  assert (Hnot : ~ In (iface_ref func) (map iface_ref l1)).
  { rewrite map_app in Hnodup. cbn [map] in Hnodup.
    apply NoDup_remove_2 in Hnodup. intros Hin. apply Hnodup.
    apply in_or_app. now left. }
  unfold interfaceMember, indexOf.
  rewrite (indexOf_from_position l1 l2 func 0 Hnot).
  cbn [indexOf_from List.length]. rewrite Nat.eqb_refl.
  rewrite List.length_app. cbn [List.length].
  replace (0 <? Z.of_nat 1 - 1)%Z with false by reflexivity.
  rewrite app_nil_r.
  replace (0 + Z.of_nat (List.length l1)
           <? Z.of_nat (List.length l1 + S (List.length l2)) - 1)%Z
    with (match l2 with [] => false | _ :: _ => true end).
  2:{ destruct l2 as [ | b l2]; cbn [List.length]; symmetry.
      - apply Z.ltb_ge. lia.
      - apply Z.ltb_lt. lia. }
  destruct l2; rewrite <- ?app_assoc; reflexivity.
Qed.

(** X8 on two records. *)
Lemma interface_members_separated_witness :
  interfaceMember
    [mkIfaceRec 0 (Some "toDate") "toDate(value: DateValue): Date" None;
     mkIfaceRec 1 (Some "isDate") "isDate(value: unknown): boolean" None]
    (mkIfaceRec 0 (Some "toDate") "toDate(value: DateValue): Date" None)
  = ["      toDate(value: DateValue): Date"; ""].
Proof.
  apply (interface_members_separated []
           [mkIfaceRec 1 (Some "isDate") "isDate(value: unknown): boolean" None]
           (mkIfaceRec 0 (Some "toDate") "toDate(value: DateValue): Date" None)).
  repeat constructor; simpl; intuition discriminate.
Defined.

(* ------------------------------------------------------------------ *)
(** ** The two collecting loops                                         *)
(* ------------------------------------------------------------------ *)

Lemma collectJSDocExports_flat (sourceFiles : list SourceFile) :
  forall allTypes allFunctions,
    collectJSDocExports sourceFiles allTypes allFunctions
    = {| types :=
           (allTypes
            ++ flat_map (fun sf => types (extractExportsFromFile sf)) sourceFiles)%list;
         functions :=
           (allFunctions
            ++ flat_map (fun sf => functions (extractExportsFromFile sf))
                 sourceFiles)%list |}.
Proof.
  induction sourceFiles as [ | sf rest IH]; intros allTypes allFunctions.
  - cbn [collectJSDocExports flat_map]. now rewrite !app_nil_r.
  - cbn [collectJSDocExports flat_map]. rewrite IH, <- !app_assoc. reflexivity.
Qed.

Lemma collectExports_flat (sourceFiles : list SourceFile) :
  forall allTypes allInterfaces h,
  exists pushed h',
    collectExports sourceFiles allTypes allInterfaces h
    = (Normal ((allTypes
                ++ flat_map (fun sf => types (extractExportsFromFile sf))
                     sourceFiles)%list,
               (allInterfaces ++ pushed)%list), h')
    /\ map iface_name pushed
       = map func_name
           (flat_map (fun sf => functions (extractExportsFromFile sf)) sourceFiles)
    /\ map iface_comment pushed
       = map func_comment
           (flat_map (fun sf => functions (extractExportsFromFile sf)) sourceFiles).
Proof.
  induction sourceFiles as [ | sf rest IH]; intros allTypes allInterfaces h.
  - exists [], h. cbn [collectExports flat_map]. unfold ret.
    rewrite !app_nil_r. repeat split.
  - destruct (mapM_interfaceRecord (filter fn_exported (getFunctions sf)) h)
      as (l & Hl & _ & Hn & _ & Hc).
    destruct (IH (allTypes
                  ++ map typeRecord (filter alias_exported (getTypeAliases sf)))%list
                (allInterfaces ++ l)%list
                (h + List.length (filter fn_exported (getFunctions sf))))
      as (pushed & h' & Hrest & Hn' & Hc').
    exists (l ++ pushed)%list, h'.
    cbn [collectExports]. unfold bind. rewrite Hl, Hrest.
    cbn [flat_map].
    split; [rewrite <- !app_assoc; reflexivity | ].
    rewrite !map_app, Hn, Hc, Hn', Hc'.
    unfold extractExportsFromFile. cbn [functions].
    rewrite !map_map. split; reflexivity.
Qed.

(** X9.  The build of the declaration block and the build of the
    documentation comments collect the same exports: over a list of source
    files each gathers the exports of the files one after the other, in
    the order of the files, so that the type records are the same and the
    interface records have the names and comments of the function
    records. *)
Theorem builds_collect_the_same (sourceFiles : list SourceFile) (h : Ref) :
  exists allTypes allInterfaces h',
    collectExports sourceFiles [] [] h = (Normal (allTypes, allInterfaces), h')
    /\ allTypes = types (collectJSDocExports sourceFiles [] [])
    /\ map iface_name allInterfaces
       = map func_name (functions (collectJSDocExports sourceFiles [] []))
    /\ map iface_comment allInterfaces
       = map func_comment (functions (collectJSDocExports sourceFiles [] []))
    /\ types (collectJSDocExports sourceFiles [] [])
       = flat_map (fun sf => types (extractExportsFromFile sf)) sourceFiles
    /\ functions (collectJSDocExports sourceFiles [] [])
       = flat_map (fun sf => functions (extractExportsFromFile sf)) sourceFiles.
Proof.
  destruct (collectExports_flat sourceFiles [] [] h) as (pushed & h' & Hc & Hn & Hcm).
  rewrite collectJSDocExports_flat. cbn [types functions app] in *.
  exists (flat_map (fun sf => types (extractExportsFromFile sf)) sourceFiles),
         pushed, h'.
  repeat split; assumption.
Qed.

(* ================================================================== *)
(** * Further properties of the documentation lookup                    *)
(* ================================================================== *)

(** X10.  The return description of a documented function does not depend
    on what its documentation comment says: two comments without a
    backslash give the same description, one of three fixed texts. *)
Theorem return_description_ignores_comment (comment1 comment2 : string)
    (functionName : option string) :
  truthy comment1 = true -> occurs backslash comment1 = false ->
  truthy comment2 = true -> occurs backslash comment2 = false ->
  getReturnDescription (Some comment1) functionName
  = getReturnDescription (Some comment2) functionName
  /\ (getReturnDescription (Some comment1) functionName
      = "The converted Date or null if the value is invalid"
      \/ getReturnDescription (Some comment1) functionName
         = "True if the value is a valid Date object"
      \/ getReturnDescription (Some comment1) functionName = "The converted Date").
Proof.
  intros Ht1 Hb1 Ht2 Hb2. unfold getReturnDescription, present.
  rewrite Ht1, Ht2, (re_returns_needs_backslash _ Hb1),
    (re_returns_needs_backslash _ Hb2).
  split; [reflexivity | ].
  destruct (name_is functionName "toDate"); [now left | ].
  destruct (name_is functionName "isDate"); [right; now left | right; now right].
Qed.

(** X10 on the comment of [toDate] and a comment whose return tag has a
    hyphen. *)
Lemma return_description_ignores_comment_witness :
  getReturnDescription (Some doc_toDate) (Some "nextDay")
  = getReturnDescription (Some doc_returns_hyphen) (Some "nextDay").
Proof.
  apply (return_description_ignores_comment doc_toDate doc_returns_hyphen
           (Some "nextDay")); reflexivity.
Defined.

Lemma search_found (ic : bool) (r : Regex) (s : string) :
  forall prev m,
    search ic r prev s = Some m ->
    exists prev' s', exec_at ic r prev' s' = Some m.
Proof.
  induction s as [ | c s IH]; intros prev m H; simpl in H.
  - destruct (exec_at ic r prev EmptyString) eqn:E; [ | discriminate H].
    injection H as <-. eauto.
  - destruct (exec_at ic r prev (String c s)) eqn:E.
    + injection H as <-. eauto.
    + eapply IH; eassumption.
Qed.

Lemma Reach_sets_group (ic : bool) (r : Regex) prev s cap prev' s' cap' :
  Reach ic r prev s cap prev' s' cap' ->
  sets_group r = true ->
  exists g, cap' = Some g
            /\ (captures_no_LF ic r = true -> occurs LF g = false).
Proof.
  induction 1 as
    [ prev s cap
    | cs prev c s cap Hc
    | cs prev s cap prev' s' Hstar
    | cs prev c s cap prev' s' Hc Hstar
    | cs prev s cap
    | cs prev c s cap Hc
    | s cap
    | c s cap Hc
    | prev cap
    | r1 r2 prev s cap prev1 s1 cap1 prev2 s2 cap2 _ _ _ IH2
    | r1 r2 prev s cap prev' s' cap' _ IH
    | r1 r2 prev s cap prev' s' cap' _ IH
    | r prev s cap prev' s' cap' Hinner _ ];
    cbn [sets_group captures_no_LF]; intros Hg; try discriminate Hg.
  - exact (IH2 Hg).
  - apply andb_true_iff in Hg as [Hg _]. destruct (IH Hg) as (g & -> & Hno).
    exists g. split; [reflexivity | ].
    intros H. apply andb_true_iff in H as [H _]. now apply Hno.
  - apply andb_true_iff in Hg as [_ Hg]. destruct (IH Hg) as (g & -> & Hno).
    exists g. split; [reflexivity | ].
    intros H. apply andb_true_iff in H as [_ H]. now apply Hno.
  - destruct (Reach_consumed _ _ _ _ _ _ _ _ Hinner) as (u & -> & Hu).
    exists u. rewrite substring_prefix. split; [reflexivity | exact Hu].
Qed.

Lemma str_match_capture (comment : string) (r : Regex) (m : MatchResult) :
  sets_group r = true ->
  str_match comment true r = Some m ->
  exists g, group1 m = Some g
            /\ (captures_no_LF true r = true -> occurs LF g = false).
Proof.
  intros Hsets H. unfold str_match in H.
  destruct (search_found _ _ _ _ _ H) as (prev' & s' & Hexec).
  unfold exec_at in Hexec.
  destruct (rmatch_sound _ _ _ _ _ _ _ _ Hexec)
    as (p1 & s1 & cap1 & Hreach & Hres).
  injection Hres as <-. cbn [group1].
  exact (Reach_sets_group _ _ _ _ _ _ _ _ Hreach Hsets).
Qed.

(** X11.  Wherever the pattern of a parameter whose name is an identifier,
    or the pattern of the return tag, matches, the capture is set, so that
    the [trim] call on it cannot fail; and what the parameter pattern
    captures is without a line feed. *)
Theorem matches_set_the_capture (comment paramName : string) (m : MatchResult) :
  (is_identifier paramName = true ->
   str_match comment true (re_param paramName) = Some m ->
   exists g, group1 m = Some g /\ occurs LF g = false)
  /\ (str_match comment true re_returns = Some m ->
      exists g, group1 m = Some g).
Proof.
  split; [intros _ H | intros H].
  - destruct (str_match_capture comment (re_param paramName) m eq_refl H)
      as (g & Hg & Hno).
    exists g. split; [exact Hg | now apply Hno].
  - destruct (str_match_capture comment re_returns m eq_refl H) as (g & Hg & _).
    now exists g.
Qed.

(** X11 on the comment of [toDate]. *)
Lemma matches_set_the_capture_witness :
  exists g,
    group1 (mkMatch 43 (Some "The value to convert to Date")) = Some g
    /\ occurs LF g = false.
Proof.
  apply (proj1 (matches_set_the_capture doc_toDate "value"
                  (mkMatch 43 (Some "The value to convert to Date")))).
  - reflexivity.
  - vm_compute. reflexivity.
Defined.

Lemma param_description_one_line (jsdocComment : option string)
    (paramName : string) :
  occurs LF paramName = false ->
  occurs LF (getParamDescription jsdocComment paramName) = false.
Proof.
  intros Hname. unfold getParamDescription.
  destruct (present jsdocComment) as [comment | ].
  - destruct (str_match comment true (re_param paramName)) as [m | ] eqn:Hm.
    + destruct (str_match_capture comment (re_param paramName) m eq_refl Hm)
        as (g & Hg & Hno).
      unfold group1_trim. rewrite Hg. apply trim_occurs. now apply Hno.
    + destruct (String.eqb paramName "defaultValue"); reflexivity.
  - destruct (String.eqb paramName "value"); [reflexivity | ].
    destruct (String.eqb paramName "defaultValue"); [reflexivity | ].
    rewrite !occurs_app, Hname. reflexivity.
Qed.

(** X12.  The description of a parameter is one line: for a parameter whose
    name is an identifier, [getParamDescription] returns a text without a
    line feed, whatever the documentation comment. *)
Theorem getParamDescription_one_line (jsdocComment : option string)
    (paramName : string) :
  is_identifier paramName = true ->
  occurs LF (getParamDescription jsdocComment paramName) = false.
Proof.
  intros Hid.
  pose proof (is_identifier_occurs paramName LF Hid eq_refl) as Hname.
  unfold getParamDescription.
  assert (Htable :
    occurs LF (if String.eqb paramName "value"
               then "The value to convert to a Date"
               else if String.eqb paramName "defaultValue"
                    then "The default value to return if the value is invalid"
                    else "The " ++ paramName ++ " parameter") = false).
  { destruct (String.eqb paramName "value"); [reflexivity | ].
    destruct (String.eqb paramName "defaultValue"); [reflexivity | ].
    rewrite !occurs_app, Hname. reflexivity. }
  destruct (present jsdocComment) as [comment | ]; [ | exact Htable].
  destruct (str_match comment true (re_param paramName)) as [m | ] eqn:Hm.
  - destruct (str_match_capture comment (re_param paramName) m eq_refl Hm)
      as (g & Hg & Hno).
    unfold group1_trim. rewrite Hg. apply trim_occurs. now apply Hno.
  - destruct (String.eqb paramName "defaultValue"); reflexivity.
Qed.

(** X12 on the comment of [toDate]. *)
Lemma getParamDescription_one_line_witness :
  occurs LF (getParamDescription (Some doc_toDate) "defaultValue") = false.
Proof.
  apply (getParamDescription_one_line (Some doc_toDate) "defaultValue").
  reflexivity.
Defined.

(* ================================================================== *)
(** * The lines of the written texts                                    *)
(* ================================================================== *)

(** The renderers join their elements with line feeds; the lines of the
    text are the elements when no element holds a line feed. *)
Lemma split_one_line (s : string) : occurs LF s = false -> split LF s = [s].
Proof.
  induction s as [ | c s IH]; [reflexivity | ].
  intros H. cbn [occurs] in H. apply orb_false_iff in H as [Hc Hs].
  cbn [split]. now rewrite Hc, (IH Hs).
Qed.

Lemma split_app_LF (a rest : string) :
  occurs LF a = false -> split LF (a ++ String LF rest) = a :: split LF rest.
Proof.
  induction a as [ | c a IH]; intros H.
  - cbn [append split]. now rewrite Ascii.eqb_refl.
  - cbn [occurs] in H. apply orb_false_iff in H as [Hc Ha].
    cbn [append split]. now rewrite Hc, (IH Ha).
Qed.

Lemma split_join (l : list string) :
  l <> [] ->
  Forall (fun line => occurs LF line = false) l ->
  split LF (join (String LF EmptyString) l) = l.
Proof.
  intros Hne Hl. induction Hl as [ | a l Ha Hl IH]; [contradiction | ].
  destruct l as [ | b l]; [exact (split_one_line a Ha) | ].
  rewrite join_cons_cons. cbn [append].
  rewrite (split_app_LF _ _ Ha), IH; [reflexivity | discriminate].
Qed.

Lemma one_line_true (s : string) : one_line s = true -> occurs LF s = false.
Proof. unfold one_line. now destruct (occurs LF s). Qed.

Lemma trimmedLines_one_line (comment : string) :
  Forall (fun line => occurs LF line = false) (trimmedLines comment).
Proof.
  unfold trimmedLines. apply Forall_map.
  eapply Forall_impl; [ | apply split_pieces].
  intros piece. apply trim_occurs.
Qed.

Lemma clean_comment_one_line (jsdocComment : option string) :
  occurs LF (extractCleanComment jsdocComment) = false.
Proof.
  destruct jsdocComment as [comment | ]; [ | reflexivity].
  unfold extractCleanComment. destruct (truthy comment); [ | reflexivity].
  cbn [negb]. apply trim_occurs, join_occurs; [reflexivity | ].
  eapply Forall_impl; [ | exact (kept_lines comment)].
  now intros line [H _].
Qed.

Lemma Forall_filter_keeps {A} (P : A -> Prop) (p : A -> bool) (l : list A) :
  Forall P l -> Forall P (filter p l).
Proof.
  intros H. apply Forall_forall. intros x Hx.
  apply filter_In in Hx as [Hx _]. revert x Hx. now apply Forall_forall.
Qed.

Lemma typeMember_one_line (type : TypeRec) :
  type_on_one_line type = true ->
  Forall (fun line => occurs LF line = false) (typeMember type).
Proof.
  intros H. apply andb_true_iff in H as [Hname Hdef].
  apply one_line_true in Hname, Hdef.
  unfold typeMember. apply Forall_app. split.
  - destruct (truthy_opt (type_comment type)); [ | constructor].
    destruct (truthy (trim (extractCleanComment (type_comment type))));
      [ | constructor].
    repeat constructor.
    rewrite occurs_app, clean_comment_one_line. reflexivity.
  - repeat constructor. rewrite !occurs_app, Hname, Hdef. reflexivity.
Qed.

Lemma interfaceMember_one_line (interfaces : list IfaceRec) (func : IfaceRec) :
  one_line (iface_signature func) = true ->
  Forall (fun line => occurs LF line = false) (interfaceMember interfaces func).
Proof.
  intros Hsig. apply one_line_true in Hsig.
  unfold interfaceMember. apply Forall_app. split; [ | apply Forall_app; split].
  - destruct (iface_comment func) as [comment | ]; [ | constructor].
    destruct (truthy comment); [ | constructor].
    apply Forall_app. split; [repeat constructor | ].
    apply Forall_app. split.
    + destruct (truthy (trim (extractCleanComment (Some comment))));
        [ | constructor].
      repeat constructor. rewrite occurs_app, clean_comment_one_line. reflexivity.
    + apply Forall_app. split; [ | repeat constructor].
      apply Forall_map. do 2 apply Forall_filter_keeps.
      eapply Forall_impl; [ | apply trimmedLines_one_line].
      intros line Hline. rewrite occurs_app, Hline. reflexivity.
  - repeat constructor. rewrite occurs_app, Hsig. reflexivity.
  - destruct (indexOf interfaces func <? Z.of_nat (List.length interfaces) - 1)%Z;
      repeat constructor.
Qed.

Lemma declarationLines_one_line (types : list TypeRec) (interfaces : list IfaceRec) :
  forallb type_on_one_line types = true ->
  forallb (fun func => one_line (iface_signature func)) interfaces = true ->
  Forall (fun line => occurs LF line = false) (declarationLines types interfaces).
Proof.
  intros Htypes Hfuncs.
  rewrite forallb_forall in Htypes. rewrite forallb_forall in Hfuncs.
  unfold declarationLines.
  apply Forall_app. split; [repeat constructor | ].
  apply Forall_app. split.
  { apply Forall_flat_map, Forall_forall. intros type Hin.
    apply typeMember_one_line, Htypes, Hin. }
  apply Forall_app. split; [repeat constructor | ].
  apply Forall_app. split; [ | repeat constructor].
  apply Forall_flat_map, Forall_forall. intros func Hin.
  apply interfaceMember_one_line, Hfuncs, Hin.
Qed.

(** X4.  When the names and the definitions of the type records and the
    signatures of the interface records take one line each, the lines of
    the declaration block that begin a type member are the members of the
    type records, one for each and in their order: no line of a
    documentation comment and no signature adds one. *)
Theorem declaration_block_type_members (types : list TypeRec)
    (interfaces : list IfaceRec) :
  forallb type_on_one_line types = true ->
  forallb (fun func => one_line (iface_signature func)) interfaces = true ->
  filter (fun line => startsWith line "    type ")
    (split LF (generateTypeDeclarations types interfaces))
  = map (fun type => "    type " ++ type_name type ++ " = " ++ type_definition type)
      types.
Proof.
  intros Htypes Hfuncs. unfold generateTypeDeclarations.
  rewrite split_join.
  - apply declarationLines_type_members.
  - unfold declarationLines. discriminate.
  - now apply declarationLines_one_line.
Qed.

(** X4 on the declaration block of [app/code.ts]. *)
Lemma declaration_block_type_members_witness :
  filter (fun line => startsWith line "    type ")
    (split LF
       (generateTypeDeclarations [typeRecord node_DateValue]
          [mkIfaceRec 0 (Some "toDate") (functionSignature node_toDate) (Some doc_toDate);
           mkIfaceRec 1 (Some "toDateStrict") (functionSignature node_toDateStrict)
             (Some doc_toDateStrict)]))
  = ["    type DateValue = Date | number | string | null | undefined"].
Proof.
  apply (declaration_block_type_members [typeRecord node_DateValue]
           [mkIfaceRec 0 (Some "toDate") (functionSignature node_toDate) (Some doc_toDate);
            mkIfaceRec 1 (Some "toDateStrict") (functionSignature node_toDateStrict)
              (Some doc_toDateStrict)]);
    reflexivity.
Defined.

Lemma substring_occurs (x : ascii) (s : string) :
  occurs x s = false -> forall n m, occurs x (substring n m s) = false.
Proof.
  induction s as [ | c s IH]; intros H n m.
  - destruct n, m; reflexivity.
  - cbn [occurs] in H. apply orb_false_iff in H as [Hc Hs].
    destruct n as [ | n]; [destruct m as [ | m] | ]; cbn [substring].
    + reflexivity.
    + cbn [occurs]. now rewrite Hc, (IH Hs).
    + exact (IH Hs n m).
Qed.

Lemma replace_first_occurs (x : ascii) (pat rep s : string) :
  occurs x rep = false -> occurs x s = false ->
  occurs x (replace_first pat rep s) = false.
Proof.
  intros Hrep. induction s as [ | c s IH]; intros Hs.
  - cbn [replace_first]. destruct (String.prefix pat EmptyString); [ | reflexivity].
    rewrite occurs_app, Hrep. now apply substring_occurs.
  - cbn [replace_first]. destruct (String.prefix pat (String c s)).
    + rewrite occurs_app, Hrep. now apply substring_occurs.
    + cbn [occurs] in Hs. apply orb_false_iff in Hs as [Hc Hs].
      cbn [occurs]. now rewrite Hc, (IH Hs).
Qed.

Lemma return_description_one_line (jsdocComment functionName : option string) :
  match jsdocComment with
  | Some comment => negb (occurs backslash comment)
  | None => true
  end = true ->
  occurs LF (getReturnDescription jsdocComment functionName) = false.
Proof.
  intros H. unfold getReturnDescription, present.
  destruct jsdocComment as [comment | ].
  - destruct (truthy comment).
    + rewrite re_returns_needs_backslash
        by (now destruct (occurs backslash comment)).
      destruct (name_is functionName "toDate"); [reflexivity | ].
      destruct (name_is functionName "isDate"); reflexivity.
    + destruct (name_is functionName "toDate"); [reflexivity | ].
      destruct (name_is functionName "toDateStrict"); [reflexivity | ].
      destruct (name_is functionName "isDate"); reflexivity.
  - destruct (name_is functionName "toDate"); [reflexivity | ].
    destruct (name_is functionName "toDateStrict"); [reflexivity | ].
    destruct (name_is functionName "isDate"); reflexivity.
Qed.

Lemma typedefBlock_one_line (type : TypeRec) :
  type_on_one_line type = true ->
  Forall (fun line => occurs LF line = false) (typedefBlock type).
Proof.
  intros H. apply andb_true_iff in H as [Hname Hdef].
  apply one_line_true in Hname, Hdef.
  unfold typedefBlock. apply Forall_app. split; [repeat constructor | ].
  apply Forall_app. split.
  - destruct (truthy_opt (type_comment type)); [ | constructor].
    repeat constructor. rewrite occurs_app, clean_comment_one_line. reflexivity.
  - repeat constructor. rewrite !occurs_app, Hname, Hdef. reflexivity.
Qed.

Lemma paramLine_one_line (comment : option string) (param : ParameterNode) :
  param_on_one_line param = true ->
  occurs LF (paramLine comment param) = false.
Proof.
  intros H. apply andb_true_iff in H as [Hname Htype].
  apply one_line_true in Htype.
  pose proof (is_identifier_occurs _ LF Hname eq_refl) as Hn.
  unfold paramLine.
  rewrite !occurs_app, (param_description_one_line comment _ Hn).
  replace (occurs LF
             (if includes (text_or_any (param_typeNode param)) "DateValue"
              then "Utils." ++ text_or_any (param_typeNode param)
              else text_or_any (param_typeNode param))) with false.
  2:{ destruct (includes (text_or_any (param_typeNode param)) "DateValue");
        rewrite ?occurs_app, Htype; reflexivity. }
  replace (occurs LF
             (if param_questionToken param
              then
                if String.eqb (param_name param) "defaultValue"
                then "[" ++ param_name param ++ "=null]"
                else "[" ++ param_name param ++ "]"
              else param_name param)) with false.
  2:{ destruct (param_questionToken param); [ | now rewrite Hn].
      destruct (String.eqb (param_name param) "defaultValue");
        rewrite !occurs_app, Hn; reflexivity. }
  reflexivity.
Qed.

Lemma functionBlock_one_line (func : FuncRec) :
  func_on_one_line func = true ->
  Forall (fun line => occurs LF line = false) (functionBlock func).
Proof.
  intros H. unfold func_on_one_line in H.
  apply andb_true_iff in H as [H Hcomment].
  apply andb_true_iff in H as [H Hret].
  apply andb_true_iff in H as [Hname Hparams].
  apply one_line_true in Hname, Hret.
  rewrite forallb_forall in Hparams.
  unfold functionBlock.
  apply Forall_app. split; [repeat constructor | ].
  apply Forall_app. split.
  { destruct (truthy_opt (func_comment func)); [ | constructor].
    destruct (truthy (trim (extractCleanComment (func_comment func))));
      [ | constructor].
    repeat constructor. rewrite occurs_app, clean_comment_one_line. reflexivity. }
  apply Forall_app. split.
  { repeat constructor. rewrite occurs_app, Hname. reflexivity. }
  apply Forall_app. split.
  { apply Forall_map, Forall_forall. intros param Hin.
    apply paramLine_one_line, Hparams, Hin. }
  apply Forall_app. split.
  { repeat constructor.
    rewrite !occurs_app, (return_description_one_line _ _ Hcomment).
    replace (occurs LF
               (if includes (func_returnType func) "Date"
                then replace_first "undefined" "null" (func_returnType func)
                else func_returnType func)) with false; [reflexivity | ].
    destruct (includes (func_returnType func) "Date"); [ | now rewrite Hret].
    symmetry. now apply replace_first_occurs. }
  apply Forall_app. split; [ | repeat constructor].
  destruct (name_is (func_name func) "toDateStrict"
            && match func_comment func with
               | Some c => includes c "@throws"
               | None => false
               end); repeat constructor.
Qed.

Lemma jsdocLines_one_line (allTypes : list TypeRec) (allFunctions : list FuncRec) :
  forallb type_on_one_line allTypes = true ->
  forallb func_on_one_line allFunctions = true ->
  Forall (fun line => occurs LF line = false) (jsdocLines allTypes allFunctions).
Proof.
  intros Htypes Hfuncs.
  rewrite forallb_forall in Htypes. rewrite forallb_forall in Hfuncs.
  unfold jsdocLines.
  apply Forall_app. split; [repeat constructor | ].
  apply Forall_app. split.
  { apply Forall_flat_map, Forall_forall. intros type Hin.
    apply typedefBlock_one_line, Htypes, Hin. }
  apply Forall_app. split.
  { apply Forall_flat_map, Forall_forall. intros func Hin.
    apply functionBlock_one_line, Hfuncs, Hin. }
  apply Forall_app. split; [ | repeat constructor].
  destruct (0 <? List.length (map func_name allFunctions))%nat; [ | constructor].
  apply Forall_app. split; [repeat constructor | ].
  apply Forall_app. split; [ | repeat constructor].
  rewrite map_map. apply Forall_map, Forall_forall. intros func Hin.
  specialize (Hfuncs func Hin). unfold func_on_one_line in Hfuncs.
  apply andb_true_iff in Hfuncs as [Hfuncs _].
  apply andb_true_iff in Hfuncs as [Hfuncs _].
  apply andb_true_iff in Hfuncs as [Hname _].
  apply one_line_true in Hname. rewrite occurs_app, Hname. reflexivity.
Qed.

(** X5.  When the names and the definitions of the type records take one
    line each, and every function record has a name and a return type of
    one line, parameters whose names are identifiers and whose types take
    one line, and a documentation comment without a backslash, the lines
    of the documentation text that begin a function tag are the tags of
    the function records, one for each and in their order: no description,
    parameter line, return line or type definition adds one. *)
Theorem jsdoc_function_tags (allTypes : list TypeRec) (allFunctions : list FuncRec) :
  forallb type_on_one_line allTypes = true ->
  forallb func_on_one_line allFunctions = true ->
  filter (fun line => startsWith line " * @function Utils.")
    (split LF (generateJSDocFromExports allTypes allFunctions))
  = map (fun func => " * @function Utils." ++ template_of (func_name func))
      allFunctions.
Proof.
  intros Htypes Hfuncs. unfold generateJSDocFromExports.
  rewrite split_join.
  - apply jsdocLines_function_tags.
  - unfold jsdocLines. discriminate.
  - now apply jsdocLines_one_line.
Qed.

(** X5 on the documentation of [app/code.ts] and [app/type-check.ts]. *)
Lemma jsdoc_function_tags_witness :
  filter (fun line => startsWith line " * @function Utils.")
    (split LF
       (generateJSDocFromExports [typeRecord node_DateValue]
          (map functionRecord [node_toDate; node_toDateStrict; node_isDate])))
  = [" * @function Utils.toDate"; " * @function Utils.toDateStrict";
     " * @function Utils.isDate"].
Proof.
  apply (jsdoc_function_tags [typeRecord node_DateValue]
           (map functionRecord [node_toDate; node_toDateStrict; node_isDate]));
    reflexivity.
Defined.

(* ================================================================== *)
(** * Properties of the imports of a user project                       *)
(* ================================================================== *)

Lemma set_has_In (s : StringSet) (x : string) : set_has s x = true <-> In x s.
Proof.
  unfold set_has. rewrite existsb_exists. split.
  - intros (y & Hy & Heq). apply String.eqb_eq in Heq. now subst.
  - intros H. exists x. split; [exact H | apply String.eqb_refl].
Qed.

Lemma set_add_spec (s : StringSet) (x : string) :
  (NoDup s -> NoDup (set_add s x))
  /\ (forall y, In y (set_add s x) <-> In y s \/ y = x).
Proof.
  unfold set_add. destruct (set_has s x) eqn:Hx.
  - apply set_has_In in Hx. split; [auto | ].
    intros y. split; [auto | ]. intros [H | ->]; assumption.
  - assert (Hnot : ~ In x s).
    { intros H. apply set_has_In in H. rewrite H in Hx. discriminate Hx. }
    split.
    + intros Hs. apply NoDup_app; [exact Hs | repeat constructor; intros [] | ].
      intros y Hy [<- | []]. contradiction.
    + intros y. rewrite in_app_iff. cbn [In]. intuition.
Qed.

Lemma fold_set_add_spec (l : list string) :
  forall s : StringSet,
    (NoDup s -> NoDup (fold_left set_add l s))
    /\ (forall y, In y (fold_left set_add l s) <-> In y s \/ In y l).
Proof.
  induction l as [ | x l IH]; intros s.
  - cbn [fold_left In]. split; [auto | intuition].
  - cbn [fold_left]. destruct (IH (set_add s x)) as [IHn IHi].
    destruct (set_add_spec s x) as [Hn Hi]. split.
    + intros Hs. apply IHn, Hn, Hs.
    + intros y. rewrite IHi, Hi. cbn [In]. intuition.
Qed.

(** What an import declaration asks for. *)
Lemma addImport_spec (s : StringSet) (imp : ImportDeclaration) :
  (NoDup s -> NoDup (addImport s imp))
  /\ (forall y,
        In y (addImport s imp)
        <-> In y s
            \/ (from_utility_package (moduleSpecifierValue imp) = true
                /\ (In y (namedImports imp)
                    \/ (y = "*" /\ namespaceImport imp <> None)))).
Proof.
  unfold addImport.
  destruct (from_utility_package (moduleSpecifierValue imp)).
  2:{ split; [auto | ]. intros y. split; [auto | ].
      intros [H | [H _]]; [exact H | discriminate H]. }
  destruct (fold_set_add_spec (namedImports imp) s) as [Hn Hi].
  destruct (namespaceImport imp) as [ns | ].
  - destruct (set_add_spec (fold_left set_add (namedImports imp) s) "*")
      as [Hn' Hi'].
    split; [auto | ].
    intros y. rewrite Hi', Hi. split.
    + intros [[H | H] | ->]; [now left | right; split; auto | ].
      right. split; [reflexivity | ]. right. split; [reflexivity | discriminate].
    + intros [H | [_ [H | [-> _]]]]; auto.
  - split; [exact Hn | ].
    intros y. rewrite Hi. split.
    + intros [H | H]; [now left | right; split; auto].
    + intros [H | [_ [H | [_ H]]]]; auto. contradiction.
Qed.

Lemma fold_addImport_spec (file : UserFile) :
  forall s : StringSet,
    (NoDup s -> NoDup (fold_left addImport file s))
    /\ (forall y,
          In y (fold_left addImport file s)
          <-> In y s
              \/ (exists imp,
                    In imp file
                    /\ from_utility_package (moduleSpecifierValue imp) = true
                    /\ (In y (namedImports imp)
                        \/ (y = "*" /\ namespaceImport imp <> None)))).
Proof.
  induction file as [ | imp file IH]; intros s.
  - cbn [fold_left]. split; [auto | ].
    intros y. split; [auto | ]. intros [H | (imp & [] & _)]. exact H.
  - cbn [fold_left]. destruct (IH (addImport s imp)) as [IHn IHi].
    destruct (addImport_spec s imp) as [Hn Hi]. split.
    + intros Hs. apply IHn, Hn, Hs.
    + intros y. rewrite IHi, Hi. split.
      * intros [[H | H] | (imp' & Hin & H)]; [now left | | ].
        -- right. exists imp. split; [now left | exact H].
        -- right. exists imp'. split; [now right | exact H].
      * intros [H | (imp' & [<- | Hin] & H)]; [left; now left | left; now right | ].
        right. exists imp'. split; assumption.
Qed.

(** X13.  [findUsedUtilityExports] returns the names that the user files
    import from the utility package, each once: a name is in the set
    exactly when some import declaration from the package (the module
    ['@your-org/gas-utils'] or a path ending in ['/gas-utils']) names it,
    and the star is in the set exactly when such a declaration is a
    namespace import.  Imports from other modules add nothing. *)
Theorem findUsedUtilityExports_spec (userFiles : list UserFile) :
  NoDup (findUsedUtilityExports userFiles)
  /\ (forall name,
        In name (findUsedUtilityExports userFiles)
        <-> exists file imp,
              In file userFiles /\ In imp file
              /\ from_utility_package (moduleSpecifierValue imp) = true
              /\ (In name (namedImports imp)
                  \/ (name = "*" /\ namespaceImport imp <> None))).
Proof.
  unfold findUsedUtilityExports.
  assert (Hgen : forall files (s : StringSet),
    (NoDup s ->
     NoDup (fold_left (fun used file => fold_left addImport file used) files s))
    /\ (forall y,
          In y (fold_left (fun used file => fold_left addImport file used) files s)
          <-> In y s
              \/ (exists file imp,
                    In file files /\ In imp file
                    /\ from_utility_package (moduleSpecifierValue imp) = true
                    /\ (In y (namedImports imp)
                        \/ (y = "*" /\ namespaceImport imp <> None))))).
  { induction files as [ | file files IH]; intros s.
    - cbn [fold_left]. split; [auto | ].
      intros y. split; [auto | ]. intros [H | (file & imp & [] & _)]. exact H.
    - cbn [fold_left]. destruct (IH (fold_left addImport file s)) as [IHn IHi].
      destruct (fold_addImport_spec file s) as [Hn Hi]. split.
      + intros Hs. apply IHn, Hn, Hs.
      + intros y. rewrite IHi, Hi. split.
        * intros [[H | (imp & Hin & H)] | (file' & imp & Hf & Hin & H)];
            [now left | | ].
          -- right. exists file, imp. split; [now left | split; assumption].
          -- right. exists file', imp. split; [now right | split; assumption].
        * intros [H | (file' & imp & [<- | Hf] & Hin & H)]; [left; now left | | ].
          -- left. right. exists imp. split; assumption.
          -- right. exists file', imp. split; [exact Hf | split; assumption]. }
  destruct (Hgen userFiles []) as [Hn Hi]. split; [apply Hn; constructor | ].
  intros name. rewrite Hi. split; [ | auto].
  intros [[] | H]. exact H.
Qed.

(* ================================================================== *)
(** * Properties of the index file                                      *)
(* ================================================================== *)

Lemma exports_nothing_iff (sf : SourceFile) :
  exports_nothing sf = true
  <-> filter alias_exported (getTypeAliases sf) = []
      /\ filter fn_exported (getFunctions sf) = [].
Proof.
  split; [apply exports_nothing_filters | ].
  induction sf as [ | [a | f | text] sf IH]; intros [Ht Hf]; [reflexivity | | | ];
    cbn [getTypeAliases getFunctions filter] in Ht, Hf;
    cbn [exports_nothing forallb].
  - destruct (alias_exported a); [discriminate Ht | ]. now apply IH.
  - destruct (fn_exported f); [discriminate Hf | ]. now apply IH.
  - now apply IH.
Qed.

Section IndexFileProperties.

Variable basename : string -> string -> string.

Lemma indexExportLines_spec (sourceFile : ProjectFile) :
  indexExportLines basename sourceFile
  = if endsWith (file_path sourceFile) ".ts"
       && negb (exports_nothing (file_source sourceFile))
    then [exportStatement
            (recordNames (extractExportsFromFile (file_source sourceFile)))
            (basename (file_path sourceFile) ".ts")]
    else [].
Proof.
  unfold indexExportLines.
  destruct (endsWith (file_path sourceFile) ".ts"); [ | reflexivity].
  cbn [negb andb].
  destruct (exports_nothing (file_source sourceFile)) eqn:He.
  - apply exports_nothing_iff in He as [-> ->]. reflexivity.
  - assert (Hsome : (0 <? List.length
                            (filter alias_exported
                               (getTypeAliases (file_source sourceFile))))%nat
                    || (0 <? List.length
                               (filter fn_exported
                                  (getFunctions (file_source sourceFile))))%nat
                    = true).
    { destruct (filter alias_exported (getTypeAliases (file_source sourceFile)))
        eqn:Ht; [ | reflexivity].
      destruct (filter fn_exported (getFunctions (file_source sourceFile)))
        eqn:Hf; [ | reflexivity].
      assert (Hnone : exports_nothing (file_source sourceFile) = true)
        by (apply exports_nothing_iff; now split).
      rewrite Hnone in He. discriminate He. }
    rewrite Hsome. cbn [negb].
    unfold recordNames, extractExportsFromFile. cbn [types functions].
    rewrite !map_map. reflexivity.
Qed.

(** X14.  The index file re-exports, for each source file whose path ends
    in [.ts] and that has an exported declaration, the names that the
    export extractor returns for it, the types before the functions, in
    one statement; a file without an exported declaration, or with another
    ending, adds no line (never an empty export list).  When no file has
    anything to export the index file is the fixed heading and closing
    lines. *)
Theorem generateIndexFile_exports (sourceFiles : list ProjectFile) :
  indexLines basename sourceFiles
  = (["/**";
      " * Google Apps Script Utility Library";
      " * ";
      " * This package provides utility functions for Google Apps Script development.";
      " * It can be bundled directly into your GAS project using a build tool.";
      " */";
      ""]
     ++ map (fun sourceFile =>
               exportStatement
                 (recordNames (extractExportsFromFile (file_source sourceFile)))
                 (basename (file_path sourceFile) ".ts"))
          (filter (fun sourceFile =>
                     endsWith (file_path sourceFile) ".ts"
                     && negb (exports_nothing (file_source sourceFile)))
             sourceFiles)
     ++ [""; "// Re-export everything as a default object for convenience";
         "export * as default from './index.js'"])%list
  /\ (forallb (fun sourceFile =>
                 negb (endsWith (file_path sourceFile) ".ts")
                 || exports_nothing (file_source sourceFile)) sourceFiles = true ->
      generateIndexFile basename sourceFiles
      = "/**
 * Google Apps Script Utility Library
 * 
 * This package provides utility functions for Google Apps Script development.
 * It can be bundled directly into your GAS project using a build tool.
 */


// Re-export everything as a default object for convenience
export * as default from './index.js'").
Proof.
  assert (Hlines :
    flat_map (indexExportLines basename) sourceFiles
    = map (fun sourceFile =>
             exportStatement
               (recordNames (extractExportsFromFile (file_source sourceFile)))
               (basename (file_path sourceFile) ".ts"))
        (filter (fun sourceFile =>
                   endsWith (file_path sourceFile) ".ts"
                   && negb (exports_nothing (file_source sourceFile)))
           sourceFiles)).
  { induction sourceFiles as [ | f rest IH]; [reflexivity | ].
    cbn [flat_map filter]. rewrite indexExportLines_spec, IH.
    destruct (endsWith (file_path f) ".ts"
              && negb (exports_nothing (file_source f))); reflexivity. }
  split.
  - unfold indexLines. now rewrite Hlines.
  - intros Hnone. unfold generateIndexFile, indexLines. rewrite Hlines.
    replace (filter (fun sourceFile =>
                       endsWith (file_path sourceFile) ".ts"
                       && negb (exports_nothing (file_source sourceFile)))
               sourceFiles) with (@nil ProjectFile); [reflexivity | ].
    symmetry. clear Hlines.
    induction sourceFiles as [ | f rest IH]; [reflexivity | ].
    cbn [forallb] in Hnone. apply andb_true_iff in Hnone as [Hf Hrest].
    cbn [filter].
    destruct (endsWith (file_path f) ".ts");
      destruct (exports_nothing (file_source f));
      try discriminate Hf; cbn [negb andb]; now apply IH.
Qed.

End IndexFileProperties.

(** X14 on a file without exports and a file with another ending. *)
Lemma generateIndexFile_exports_witness :
  generateIndexFile (fun _ _ => "helpers")
    [mkProjectFile "/app/helpers.ts" [StOther "const x = 1"];
     mkProjectFile "/app/appsscript.json" code_ts]
  = "/**
 * Google Apps Script Utility Library
 * 
 * This package provides utility functions for Google Apps Script development.
 * It can be bundled directly into your GAS project using a build tool.
 */


// Re-export everything as a default object for convenience
export * as default from './index.js'".
Proof.
  apply (proj2 (generateIndexFile_exports (fun _ _ => "helpers")
                  [mkProjectFile "/app/helpers.ts" [StOther "const x = 1"];
                   mkProjectFile "/app/appsscript.json" code_ts])).
  reflexivity.
Defined.

(* ================================================================== *)
(** * Further properties of the export extractor                        *)
(* ================================================================== *)

Lemma getTypeAliases_app (sf1 sf2 : SourceFile) :
  getTypeAliases (sf1 ++ sf2)%list = (getTypeAliases sf1 ++ getTypeAliases sf2)%list.
Proof.
  induction sf1 as [ | [a | f | text] sf1 IH]; cbn [app getTypeAliases];
    now rewrite ?IH.
Qed.

Lemma getFunctions_app (sf1 sf2 : SourceFile) :
  getFunctions (sf1 ++ sf2)%list = (getFunctions sf1 ++ getFunctions sf2)%list.
Proof.
  induction sf1 as [ | [a | f | text] sf1 IH]; cbn [app getFunctions];
    now rewrite ?IH.
Qed.

(** X15.  What is extracted from a file is built up declaration by
    declaration: the records of a file made of two parts are the records
    of the first part followed by those of the second, and a part without
    exported declarations changes nothing, wherever it stands. *)
Theorem extractExportsFromFile_app (sf1 sf2 quiet : SourceFile) :
  exports_nothing quiet = true ->
  types (extractExportsFromFile (sf1 ++ sf2)%list)
  = (types (extractExportsFromFile sf1) ++ types (extractExportsFromFile sf2))%list
  /\ functions (extractExportsFromFile (sf1 ++ sf2)%list)
     = (functions (extractExportsFromFile sf1)
        ++ functions (extractExportsFromFile sf2))%list
  /\ extractExportsFromFile (sf1 ++ quiet ++ sf2)%list
     = extractExportsFromFile (sf1 ++ sf2)%list.
Proof.
  intros Hquiet.
  destruct (exports_nothing_filters quiet Hquiet) as [Ht Hf].
  unfold extractExportsFromFile. cbn [types functions].
  rewrite !getTypeAliases_app, !getFunctions_app, !filter_app, !map_app, Ht, Hf.
  repeat split.
Qed.

(** X15 with a helper function between two exports. *)
Lemma extractExportsFromFile_app_witness :
  extractExportsFromFile
    ([StTypeAlias node_DateValue]
     ++ [StOther "const x = 1";
         StFunction (mkFunction false (Some "helper") [] None [])]
     ++ [StFunction node_isDate])%list
  = extractExportsFromFile
      ([StTypeAlias node_DateValue] ++ [StFunction node_isDate])%list.
Proof.
  apply (extractExportsFromFile_app [StTypeAlias node_DateValue]
           [StFunction node_isDate]
           [StOther "const x = 1";
            StFunction (mkFunction false (Some "helper") [] None [])]).
  reflexivity.
Defined.
